(** * Benchmark harness scripts: a shallow embedding and its properties

    The development follows [scripts/batch_run_task1.py] (the Mandelbrot
    batch: metric scraping, aggregation, speedup and efficiency, CSV output)
    and [scripts/batch_run_task2.py] (the N-body batch driver).

    Conventions of the embedding.
    - A Python [int] is a [Z]; a Python [str] is a [string] whose characters
      are the code points 0..255.
    - A Python [float] is read in two ways.  The Mandelbrot script is first
      written on exact rationals in canonical form ([Qc], module [Task1]):
      the rational is the value of the float, no operation rounds, there is
      no infinity and no NaN, and the only exception of a float operation
      is [ZeroDivisionError].  The statements made on this reading are
      about rows, keys, files and exceptions, and about values where they
      are exact or compared after rounding.  The functions that compute
      with floats or print them are written again on IEEE binary64
      ([Binary64], [Task1_64]): rounding to nearest, signed zeros,
      infinities, NaN, and the [OverflowError] of an [int] too large for a
      float.  What a mean is and how a float is printed is stated there.
    - A Python [dict] is a [gmap]; exceptions are values of [exn] carried by
      [result]; [print] appends an event to the standard output of the
      state the computation threads, one event constructor for each [print]
      of the scripts, carrying the values the message is formatted from.
    - The programs the scripts launch are parameters: the Mandelbrot
      executable gives a return code and the lines of its error stream, the
      N-body launcher a return code and the metrics files it leaves.  The
      launcher is taken to write no other file of the model.
    - A file is the text written to it (before any newline translation of
      the platform); the JSON configuration file is the dictionary that
      [json.load] reads from it and [json.dump] writes to it. *)

From Stdlib Require Import QArith Qcanon Qabs Qpower Ascii Floats.SpecFloat.
From stdpp Require Import base numbers list strings gmap sorting pretty.

Set Warnings "-register-all".
Local Open Scope Z_scope.

(** ** Python values, exceptions and builtins *)
Module Py.

Abbreviation float := Qc (only parsing).

(** The reasons for which the scripts (or the builtins they call) raise
    [ValueError]. *)
Inductive value_error :=
| NoAggregatedTimings       (* "No aggregated timings provided" *)
| CouldNotParseTimeSeconds  (* "Could not parse TIME_SECONDS from stderr ..." *)
| BadFloatLiteral.          (* float(s) on a string that is no number *)

Inductive exn :=
| FileNotFoundError
| RuntimeError
| ValueError (why : value_error)
| ZeroDivisionError
| OverflowError
| StatisticsError
| KeyError
| IndexError.

Inductive result (A : Type) :=
| Ok (a : A)
| Raise (e : exn).
Arguments Ok {A} a.
Arguments Raise {A} e.

Global Instance value_error_eq_dec : EqDecision value_error.
Proof. solve_decision. Defined.
Global Instance exn_eq_dec : EqDecision exn.
Proof. solve_decision. Defined.
Global Instance result_eq_dec `{EqDecision A} : EqDecision (result A).
Proof. solve_decision. Defined.

(** State and exception monad: a computation runs on a state, leaves a
    state behind also when it raises. *)
Definition M (S A : Type) : Type := S → result A * S.

Definition ret {S A} (a : A) : M S A := λ s, (Ok a, s).
Definition raise {S A} (e : exn) : M S A := λ s, (Raise e, s).
Definition bind {S A B} (c : M S A) (k : A → M S B) : M S B := λ s,
  match c s with
  | (Ok a, s') => k a s'
  | (Raise e, s') => (Raise e, s')
  end.
Definition lift {S A} (r : result A) : M S A := λ s, (r, s).
Definition get {S} : M S S := λ s, (Ok s, s).
Definition modify {S} (f : S → S) : M S unit := λ s, (Ok tt, f s).

(** [for x in l: body x] *)
Fixpoint for_each {S A} (l : list A) (body : A → M S unit) : M S unit :=
  match l with
  | [] => ret tt
  | x :: l' => bind (body x) (λ _, for_each l' body)
  end.

(** A loop that builds a value: [for x in l: acc = body acc x]. *)
Fixpoint for_fold {S A B} (l : list A) (acc : B) (body : B → A → M S B) : M S B :=
  match l with
  | [] => ret acc
  | x :: l' => bind (body acc x) (λ acc', for_fold l' acc' body)
  end.

(** The pure fragment: exceptions only. *)
Definition rbind {A B} (r : result A) (k : A → result B) : result B :=
  match r with
  | Ok a => k a
  | Raise e => Raise e
  end.

(** [[f(x) for x in l]] where [f] may raise: stops at the first exception. *)
Fixpoint rmap {A B} (f : A → result B) (l : list A) : result (list B) :=
  match l with
  | [] => Ok []
  | x :: l' => rbind (f x) (λ y, rbind (rmap f l') (λ ys, Ok (y :: ys)))
  end.

(** [d[k]] *)
Definition getitem `{Countable K} {V} (d : gmap K V) (k : K) : result V :=
  match d !! k with
  | Some v => Ok v
  | None => Raise KeyError
  end.

(** [a / b] on floats. *)
Definition truediv (a b : float) : result float :=
  if decide (b = 0%Qc) then Raise ZeroDivisionError else Ok (a / b)%Qc.

(** The float that the fraction [n/d] denotes. *)
Definition q (n : Z) (d : positive) : float := Q2Qc (n # d).

(** [float(n)] for an [int]. *)
Definition float_of_int (n : Z) : float := Qc_of_Z n.

(** [sum] of floats as [statistics] computes it: exactly. *)
Definition fsum (l : list float) : float := foldr Qcplus 0%Qc l.

(** [statistics.mean] *)
Definition mean (l : list float) : result float :=
  match l with
  | [] => Raise StatisticsError
  | _ => Ok (fsum l / float_of_int (Z.of_nat (length l)))%Qc
  end.

(** [min(x :: l, key=key)]: the first element whose key is smallest. *)
Fixpoint min_by {A} (key : A → Z) (x : A) (l : list A) : A :=
  match l with
  | [] => x
  | y :: l' => min_by key (if decide (key y < key x) then y else x) l'
  end.

(** [sorted] on a list of [int]. *)
Definition sorted (l : list Z) : list Z := merge_sort Z.le l.

(** *** Strings *)

(** [c.isspace()] on the code points 0..255. *)
Definition isspace (c : ascii) : bool :=
  let n := N_of_ascii c in
  bool_decide ((9 ≤ n ≤ 13) ∨ (28 ≤ n ≤ 32) ∨ n = 133 ∨ n = 160)%N.

Fixpoint lstrip (s : string) : string :=
  match s with
  | EmptyString => EmptyString
  | String c r => if isspace c then lstrip r else s
  end.
Definition rstrip (s : string) : string := String.rev (lstrip (String.rev s)).
(** [s.strip()] *)
Definition strip (s : string) : string := rstrip (lstrip s).

(** [s.startswith(p)] *)
Definition startswith (s p : string) : bool := String.prefix p s.

(** [c in s] for a one-character [c]. *)
Fixpoint contains (c : ascii) (s : string) : bool :=
  match s with
  | EmptyString => false
  | String a r => bool_decide (a = c) || contains c r
  end.

(** [s.split(sep, 1)] for a one-character [sep]: the text before the first
    [sep] and, when there is one, the text after it. *)
Fixpoint split1 (sep : ascii) (s : string) : string * option string :=
  match s with
  | EmptyString => (EmptyString, None)
  | String c r =>
      if decide (c = sep) then (EmptyString, Some r)
      else let '(a, b) := split1 sep r in (String c a, b)
  end.

(** [s.split(sep, 1)[1]] *)
Definition split1_second (sep : ascii) (s : string) : result string :=
  match (split1 sep s).2 with
  | Some b => Ok b
  | None => Raise IndexError
  end.

(** [s.replace(a, b)] for one-character [a] and [b]. *)
Fixpoint replace (a b : ascii) (s : string) : string :=
  match s with
  | EmptyString => EmptyString
  | String c r => String (if decide (c = a) then b else c) (replace a b r)
  end.

Fixpoint take_word (s : string) : string :=
  match s with
  | EmptyString => EmptyString
  | String c r => if isspace c then EmptyString else String c (take_word r)
  end.

(** [s.split()[0]]: the first run of non-blank characters. *)
Definition first_word (s : string) : result string :=
  match lstrip s with
  | EmptyString => Raise IndexError
  | w => Ok (take_word w)
  end.

(** [sep.join(l)] *)
Definition join (sep : string) (l : list string) : string := String.concat sep l.

(** [str(n)] for an [int]. *)
Definition str_of_int (n : Z) : string := pretty n.

(** *** Fixed-point formatting *)

(** The integer nearest to a non-negative rational, ties to even. *)
Definition round_half_even (x : Q) : Z :=
  let n := Qnum x in
  let d := Z.pos (Qden x) in
  let f := n `div` d in
  let r := n `mod` d in
  match (2 * r ?= d) with
  | Lt => f
  | Gt => f + 1
  | Eq => if Z.even f then f else f + 1
  end.

Definition digit (n : Z) : ascii := pretty_N_char (Z.to_N (n `mod` 10)).

(** The last six decimal digits of [n], zero padded. *)
Definition pad6 (n : Z) : string :=
  String (digit (n `div` 100000)) (String (digit (n `div` 10000))
 (String (digit (n `div` 1000)) (String (digit (n `div` 100))
 (String (digit (n `div` 10)) (String (digit n) EmptyString))))).

(** [f"{t:.6f}"] *)
Definition format_6f (t : float) : string :=
  let n := round_half_even (Qabs (this t) * inject_Z 1000000) in
  (if decide (t < 0)%Qc then "-" else EmptyString)
    +:+ str_of_int (n `div` 1000000) +:+ "." +:+ pad6 n.

(** *** [csv.writer] with the default dialect

    A field is written as it is unless it holds the delimiter, the quote
    character or a character of the line terminator; then it is put
    between quotes with its quotes doubled.  Rows end in CR LF. *)
Definition dquote : ascii := ascii_of_nat 34.
Definition cr : ascii := ascii_of_nat 13.
Definition lf : ascii := ascii_of_nat 10.
Definition crlf : string := String cr (String lf EmptyString).

Inductive cell :=
| CInt (n : Z)
| CStr (s : string).

Definition cell_text (c : cell) : string :=
  match c with
  | CInt n => str_of_int n
  | CStr s => s
  end.

Definition needs_quote (s : string) : bool :=
  contains "," s || contains dquote s || contains cr s || contains lf s.

Fixpoint double_quotes (s : string) : string :=
  match s with
  | EmptyString => EmptyString
  | String c r =>
      if decide (c = dquote) then String c (String c (double_quotes r))
      else String c (double_quotes r)
  end.

Definition csv_field (s : string) : string :=
  if needs_quote s then String dquote (double_quotes s +:+ String dquote EmptyString)
  else s.

(** The text [writer.writerow(cells)] writes. *)
Definition writerow (cells : list cell) : string :=
  join "," (csv_field ∘ cell_text <$> cells) +:+ crlf.

(** *** Decimal literals

    The fragment of [float(s)] the examples use: an optional sign, digits
    and an optional fractional part, with blanks allowed around.  On this
    fragment [float] yields the number the literal denotes. *)
Definition digit_value (c : ascii) : option Z :=
  let n := Z.of_N (N_of_ascii c) in
  if decide (48 ≤ n ≤ 57) then Some (n - 48) else None.

Fixpoint digits_value (acc : Z) (s : string) : option Z :=
  match s with
  | EmptyString => Some acc
  | String c r => d ← digit_value c; digits_value (10 * acc + d) r
  end.

Definition float_of_decimal (s : string) : option float :=
  let s := strip s in
  let '(neg, body) :=
    match s with
    | String "-" r => (true, r)
    | String "+" r => (false, r)
    | _ => (false, s)
    end in
  let '(ip, fp) := split1 "." body in
  let fp := default EmptyString fp in
  if decide (ip = EmptyString ∧ fp = EmptyString) then None
  else
    i ← digits_value 0 ip;
    f ← digits_value 0 fp;
    let m := i * 10 ^ Z.of_nat (String.length fp) + f in
    Some (Q2Qc ((if neg then - m else m) # Pos.of_nat (Nat.pow 10 (String.length fp)))).

End Py.

Import Py.

(** The monads are used through stdpp's [x ← c; k] and [c;; k]. *)
Global Instance result_ret : MRet result := @Ok.
Global Instance result_bind : MBind result := λ A B k r, rbind r k.
Global Instance M_ret {S} : MRet (M S) := @ret S.
Global Instance M_bind {S} : MBind (M S) := λ A B k c, bind c k.

(** ** Python floats as the interpreter has them: IEEE binary64

    The Standard Library's [SpecFloat] gives the values (signed zeros,
    finite numbers, infinities and one NaN) and the correctly rounded
    operations; precision and exponent range are those of a C [double]. *)
Module Binary64.

Definition double : Type := spec_float.
Definition prec : Z := 53.
Definition emax : Z := 1024.

Global Instance double_eq_dec : EqDecision double.
Proof. solve_decision. Defined.

(** [math.isfinite(x)] *)
Definition is_finite (x : double) : bool :=
  match x with
  | S754_zero _ | S754_finite _ _ _ => true
  | S754_infinity _ | S754_nan => false
  end.

(** [x == 0.0] *)
Definition is_zero (x : double) : bool :=
  match x with
  | S754_zero _ => true
  | _ => false
  end.

(** The rational that a finite double is ([Fraction(x)]); 0 for the
    others, of which it is never asked. *)
Definition exact (x : double) : Qc :=
  match x with
  | S754_finite s m e => Q2Qc (inject_Z (cond_Zopp s (Z.pos m)) * Qpower (2 # 1) e)
  | _ => 0%Qc
  end.

(** [n / d] on two ints, [d] positive: the double nearest to the quotient,
    ties to even; an infinity stands for a quotient beyond the doubles. *)
Definition of_ratio (n : Z) (d : positive) : double :=
  match n with
  | 0 => S754_zero false
  | Z.pos p => SFdiv prec emax (S754_finite false p 0) (S754_finite false d 0)
  | Z.neg p => SFdiv prec emax (S754_finite true p 0) (S754_finite false d 0)
  end.

(** [float(x)] for a [Fraction]: numerator over denominator. *)
Definition of_fraction (x : Qc) : double := of_ratio (Qnum x) (Qden x).

(** [float(n)] for an [int]: the nearest double, or [OverflowError] when
    that would be beyond the largest double. *)
Definition float_of_int (n : Z) : result double :=
  if decide (Z.abs n < 2 ^ 1024 - 2 ^ 970) then Ok (of_ratio n 1)
  else Raise OverflowError.

(** [a + b] *)
Definition add (a b : double) : double := SFadd prec emax a b.

(** [a / b] on two floats: an overflow gives an infinity, no exception. *)
Definition truediv (a b : double) : result double :=
  if is_zero b then Raise ZeroDivisionError else Ok (SFdiv prec emax a b).

(** [a / n] for a float and an [int]: the [int] is converted first, and
    the divisor is zero exactly when the [int] is. *)
Definition truediv_int (a : double) (n : Z) : result double :=
  b ← float_of_int n;
  if decide (n = 0) then Raise ZeroDivisionError else Ok (SFdiv prec emax a b).

(** The builtin [sum] on floats: the additions, left to right.  (The
    interpreters that compensate the rounding of the partial sums return
    the exact sum rounded, where that is a double.) *)
Definition sum (l : list double) : double := foldl add (S754_zero false) l.

(** [statistics.mean]: on finite data the exact sum, as a fraction, over
    the count, rounded once when converted back to a float; as soon as an
    infinity or a NaN is there, the float sum of those alone, which the
    division by the count leaves as it is. *)
Definition mean (data : list double) : result double :=
  match data with
  | [] => Raise StatisticsError
  | _ =>
      if forallb is_finite data then
        Ok (of_fraction (fsum (exact <$> data)
                           / Qc_of_Z (Z.of_nat (length data))))
      else
        Ok (foldl add (S754_zero false) (filter (λ x, is_finite x = false) data))
  end.

(** [f"{x:.6f}"]: the six decimals nearest to the value of a finite
    double, and [inf], [-inf] or [nan] for the others. *)
Definition format_6f (x : double) : string :=
  match x with
  | S754_nan => "nan"
  | S754_infinity s => if s then "-inf" else "inf"
  | S754_zero s => (if s then "-" else EmptyString) +:+ Py.format_6f 0%Qc
  | S754_finite _ _ _ => Py.format_6f (exact x)
  end.

End Binary64.

(** ** [batch_run_task1.py] *)
Module Task1.

(** A raw trial [(nthreads, npoints, run_index, time)]. *)
Definition timing : Type := Z * Z * Z * float.
(** An aggregated row [(nthreads, npoints, mean_time)]. *)
Definition aggregated : Type := Z * Z * float.
(** A metrics row [(nthreads, npoints, mean_time, acceleration, efficiency)]. *)
Definition metric : Type := Z * Z * float * float * float.

(** What the script prints. *)
Inductive event :=
| InfoExecutable
| InfoResultsDir
| InfoNthreadsList (l : list Z)
| InfoNpoints (n : Z)
| InfoRunsPerConfig (n : Z)
| InfoRunning (nt np r runs_per_config : Z)
| InfoTime (t : float)
| InfoSavingTimings
| InfoNoBase (base_nthreads : Z)  (* No nthreads=1 in timings, using nthreads=.. as base *)
| InfoSavingMetrics
| InfoDone.

Global Instance event_eq_dec : EqDecision event.
Proof. solve_decision. Defined.

(** What the script can see and change: whether the executable is there,
    how many processes it has run, the files it has written (by path) and
    its standard output. *)
Record world := World {
  exe_exists : bool;
  runs : nat;
  files : gmap string string;
  stdout : list event;
}.

Definition print (e : event) : M world unit :=
  modify (λ w, World (exe_exists w) (runs w) (files w) (stdout w ++ [e])).
Definition count_run : M world unit :=
  modify (λ w, World (exe_exists w) (S (runs w)) (files w) (stdout w)).
(** [with path.open("w", newline="") as f: f.write(text)] *)
Definition write_file (path text : string) : M world unit :=
  modify (λ w, World (exe_exists w) (runs w) (<[path := text]> (files w)) (stdout w)).
(** A computation that only prints, run on the standard output of the world. *)
Definition on_stdout {A} (c : M (list event) A) : M world A := λ w,
  let '(r, out) := c (stdout w) in
  (r, World (exe_exists w) (runs w) (files w) out).

Definition TIMINGS_CSV : string := "results/mandelbrot/timings_task1.csv".
Definition METRICS_CSV : string := "results/mandelbrot/metrics_task1.csv".

(** *** [save_timings_csv] and [save_metrics_csv] *)

Definition timings_cells (row : timing) : list cell :=
  let '(nt, np, r, t) := row in
  [CInt nt; CInt np; CInt r; CStr (format_6f t)].

Definition timings_text (rows : list timing) : string :=
  writerow (CStr <$> ["nthreads"; "npoints"; "run_index"; "time"])
    +:+ String.concat EmptyString (writerow ∘ timings_cells <$> rows).

Definition save_timings_csv (rows : list timing) (path : string) : M world unit :=
  write_file path (timings_text rows).

Definition metrics_cells (row : metric) : list cell :=
  let '(nt, np, t, sp, ep) := row in
  [CInt nt; CInt np; CStr (format_6f t); CStr (format_6f sp); CStr (format_6f ep)].

Definition metrics_text (rows : list metric) : string :=
  writerow (CStr <$> ["nthreads"; "npoints"; "mean_time"; "acceleration"; "efficiency"])
    +:+ String.concat EmptyString (writerow ∘ metrics_cells <$> rows).

Definition save_metrics_csv (rows : list metric) (path : string) : M world unit :=
  write_file path (metrics_text rows).

(** *** [aggregate_by_nthreads] *)

(** One turn of the first loop, on the two dictionaries.  The loop only
    stores the durations, whatever a float is. *)
Definition group_step {F} (d : gmap Z (list F) * gmap Z Z) (row : Z * Z * Z * F)
    : gmap Z (list F) * gmap Z Z :=
  let '(nt, np, _, t) := row in
  (<[nt := default [] (d.1 !! nt) ++ [t]]> d.1, <[nt := np]> d.2).

Definition group_timings {F} (timings : list (Z * Z * Z * F))
    : gmap Z (list F) * gmap Z Z :=
  foldl group_step (∅, ∅) timings.

Definition aggregate_by_nthreads (timings : list timing)
    : result (list aggregated) :=
  let '(times_by_nt, npoints_by_nt) := group_timings timings in
  rmap (λ nt,
          t_list ← getitem times_by_nt nt;
          mean_t ← mean t_list;
          np ← getitem npoints_by_nt nt;
          Ok (nt, np, mean_t))
       (sorted (elements (dom times_by_nt))).

(** *** [compute_metrics] *)

(** The first loop: the first row with [nt == 1]. *)
Definition find_base (rows : list aggregated) : option aggregated :=
  List.find (λ '(nt, _, _), bool_decide (nt = 1)) rows.

(** [lambda row: row[0]] *)
Definition by_nthreads (row : aggregated) : Z := row.1.1.

Definition metric_of (t_base : float) (row : aggregated) : result metric :=
  let '(nt, np, t) := row in
  sp ← truediv t_base t;
  ep ← truediv sp (float_of_int nt);
  Ok (nt, np, t, sp, ep).

Definition compute_metrics (aggregated_timings : list aggregated)
    : M (list event) (list metric) :=
  match aggregated_timings with
  | [] => raise (ValueError NoAggregatedTimings)
  | first :: rest =>
      t_base ←
        match find_base aggregated_timings with
        | Some (_, _, t) => ret t
        | None =>
            let '(base_nthreads, _, t) := min_by by_nthreads first rest in
            modify (λ out, out ++ [InfoNoBase base_nthreads]);;
            ret t
        end;
      lift (rmap (metric_of t_base) aggregated_timings)
  end.

(** *** [run_mandelbrot], [collect_timings] and [main] *)
Section Mandelbrot.

(** [float(s)], [None] when it raises [ValueError]. *)
Variable py_float : string → option float.

(** The executable: the return code and the lines of the error stream
    ([proc.stderr.splitlines()]) of its [k]-th run, on [nthreads] and
    [npoints]. *)
Variable mandelbrot : nat → Z → Z → Z * list string.

(** The loop over the lines of the error stream, for the line prefix
    [key=]: the value of the first line that has the prefix, [None] when
    the loop ends without a [break]. *)
Fixpoint scan_metric (key : string) (lines : list string) : result (option float) :=
  match lines with
  | [] => Ok None
  | line :: lines' =>
      let line := strip line in
      if startswith line (key +:+ "=") then
        after ← split1_second "=" line;
        let value_str := strip after in
        let value_str := replace "," "." value_str in
        match py_float value_str with
        | Some time_sec => Ok (Some time_sec)
        | None => Raise (ValueError BadFloatLiteral)
        end
      else scan_metric key lines'
  end.

Definition parse_metric (key : string) (lines : list string) : result float :=
  time_sec ← scan_metric key lines;
  match time_sec with
  | None => Raise (ValueError CouldNotParseTimeSeconds)
  | Some t => Ok t
  end.

Definition run_mandelbrot (nthreads npoints : Z) : M world float :=
  w ← get;
  if exe_exists w then
    let '(returncode, stderr) := mandelbrot (runs w) nthreads npoints in
    count_run;;
    if decide (returncode ≠ 0) then raise RuntimeError
    else lift (parse_metric "TIME_SECONDS" stderr)
  else raise FileNotFoundError.

Definition collect_timings (nthreads_list : list Z) (npoints runs_per_config : Z)
    : M world (list timing) :=
  for_fold nthreads_list [] (λ results nt,
    for_fold (seqZ 1 runs_per_config) results (λ results r,
      print (InfoRunning nt npoints r runs_per_config);;
      t ← run_mandelbrot nt npoints;
      print (InfoTime t);;
      ret (results ++ [(nt, npoints, r, t)]))).

Definition main_on (nthreads_list : list Z) (npoints runs_per_config : Z)
    : M world unit :=
  print InfoExecutable;;
  print InfoResultsDir;;
  print (InfoNthreadsList nthreads_list);;
  print (InfoNpoints npoints);;
  print (InfoRunsPerConfig runs_per_config);;
  timings ← collect_timings nthreads_list npoints runs_per_config;
  print InfoSavingTimings;;
  save_timings_csv timings TIMINGS_CSV;;
  aggregated ← lift (aggregate_by_nthreads timings);
  metrics ← on_stdout (compute_metrics aggregated);
  print InfoSavingMetrics;;
  save_metrics_csv metrics METRICS_CSV;;
  print InfoDone.

Definition main : M world unit := main_on [1; 2; 4; 8; 16] 5000 10.

End Mandelbrot.

End Task1.

(** ** [batch_run_task1.py] on binary64 floats

    The functions of the script that compute with floats or print them,
    read with the arithmetic of [Binary64] in place of the exact one. *)
Module Task1_64.

Import Task1.

Definition timing : Type := Z * Z * Z * Binary64.double.
Definition aggregated : Type := Z * Z * Binary64.double.
Definition metric : Type := Z * Z * Binary64.double * Binary64.double * Binary64.double.

(** *** [save_timings_csv] and [save_metrics_csv] *)

Definition timings_cells (row : timing) : list cell :=
  let '(nt, np, r, t) := row in
  [CInt nt; CInt np; CInt r; CStr (Binary64.format_6f t)].

Definition timings_text (rows : list timing) : string :=
  writerow (CStr <$> ["nthreads"; "npoints"; "run_index"; "time"])
    +:+ String.concat EmptyString (writerow ∘ timings_cells <$> rows).

Definition save_timings_csv (rows : list timing) (path : string) : M world unit :=
  write_file path (timings_text rows).

Definition metrics_cells (row : metric) : list cell :=
  let '(nt, np, t, sp, ep) := row in
  [CInt nt; CInt np; CStr (Binary64.format_6f t); CStr (Binary64.format_6f sp);
   CStr (Binary64.format_6f ep)].

Definition metrics_text (rows : list metric) : string :=
  writerow (CStr <$> ["nthreads"; "npoints"; "mean_time"; "acceleration"; "efficiency"])
    +:+ String.concat EmptyString (writerow ∘ metrics_cells <$> rows).

Definition save_metrics_csv (rows : list metric) (path : string) : M world unit :=
  write_file path (metrics_text rows).

(** *** [aggregate_by_nthreads] *)

Definition aggregate_by_nthreads (timings : list timing)
    : result (list aggregated) :=
  let '(times_by_nt, npoints_by_nt) := group_timings timings in
  rmap (λ nt,
          t_list ← getitem times_by_nt nt;
          mean_t ← Binary64.mean t_list;
          np ← getitem npoints_by_nt nt;
          Ok (nt, np, mean_t))
       (sorted (elements (dom times_by_nt))).

(** *** [compute_metrics] *)

Definition find_base (rows : list aggregated) : option aggregated :=
  List.find (λ '(nt, _, _), bool_decide (nt = 1)) rows.

Definition by_nthreads (row : aggregated) : Z := row.1.1.

Definition metric_of (t_base : Binary64.double) (row : aggregated) : result metric :=
  let '(nt, np, t) := row in
  sp ← Binary64.truediv t_base t;
  ep ← Binary64.truediv_int sp nt;
  Ok (nt, np, t, sp, ep).

Definition compute_metrics (aggregated_timings : list aggregated)
    : M (list event) (list metric) :=
  match aggregated_timings with
  | [] => raise (ValueError NoAggregatedTimings)
  | first :: rest =>
      t_base ←
        match find_base aggregated_timings with
        | Some (_, _, t) => ret t
        | None =>
            let '(base_nthreads, _, t) := min_by by_nthreads first rest in
            modify (λ out, out ++ [InfoNoBase base_nthreads]);;
            ret t
        end;
      lift (rmap (metric_of t_base) aggregated_timings)
  end.

End Task1_64.

(** ** [batch_run_task2.py] *)
Module Task2.

(** A JSON value, as [json.load] returns it. *)
Inductive json :=
| JNull
| JBool (b : bool)
| JNum (x : float)
| JStr (s : string)
| JList (l : list json)
| JDict (l : list (string * json)).

(** An entry of [BATCH_CONFIGS] or [BATCH_CONFIGS_OMP]; only the latter
    have the key [threads]. *)
Record batch := Batch {
  name : string;
  tend : float;
  dt : float;
  input : string;
  threads : option Z;
}.

Definition BATCH_CONFIGS : list batch :=
  [ Batch "N100_dt10" (q 10000 1) (q 10 1) "random_N100.txt" None;
    Batch "N100_dt5" (q 10000 1) (q 5 1) "random_N100.txt" None;
    Batch "N100_dt2" (q 10000 1) (q 2 1) "random_N100.txt" None;
    Batch "N500_dt10" (q 10000 1) (q 10 1) "random_N500.txt" None;
    Batch "N500_dt5" (q 10000 1) (q 5 1) "random_N500.txt" None;
    Batch "N500_dt2" (q 10000 1) (q 2 1) "random_N500.txt" None;
    Batch "N2000_dt10" (q 10000 1) (q 10 1) "random_N2000.txt" None;
    Batch "N2000_dt5" (q 10000 1) (q 5 1) "random_N2000.txt" None ].

Definition BATCH_CONFIGS_OMP : list batch :=
  [ Batch "N2000_dt5_threads1" (q 10000 1) (q 5 1) "random_N2000.txt" (Some 1);
    Batch "N2000_dt5_threads2" (q 10000 1) (q 5 1) "random_N2000.txt" (Some 2);
    Batch "N2000_dt5_threads4" (q 10000 1) (q 5 1) "random_N2000.txt" (Some 4);
    Batch "N2000_dt5_threads8" (q 10000 1) (q 5 1) "random_N2000.txt" (Some 8);
    Batch "N2000_dt5_threads16" (q 10000 1) (q 5 1) "random_N2000.txt" (Some 16) ].

Definition TARGETS : list string := ["cpu"; "cuda"].

Definition RUN_SCRIPT : string := "scripts/run_once.ps1".

(** What the script prints. *)
Inductive event :=
| InfoRepoRoot
| InfoConfigFile
| InfoRunScript
| ErrorNoRunScript
| WarnNoOriginalConfig
| Rule
| BatchConfig (batch_name : string)
| BatchParams (tend dt : float) (input : string)
| OmpBatchConfig (batch_name : string)
| OmpBatchParams (tend dt : float) (input : string) (threads : Z)
| RunningTarget (target batch_name : string)
| RunningOmp (batch_name : string) (threads : Z)
| Running (cmd : list string)
| ErrorRunFailed (target batch_name : string) (rc : Z)
| ErrorOmpRunFailed (batch_name : string) (rc : Z)
| WarnMetricsNotFound (target : string)
| OkFinished (target batch_name : string)
| OkFinishedOmp (batch_name : string) (threads_req : Z) (threads_actual : string)
| ConfigRestored
| SummaryWritten
| Done.

(** The files and the output of the script.  The configuration file is
    represented by the dictionary it holds, a metrics file by its lines,
    the summary by its text; [None] is a file that does not exist. *)
Record world := World {
  run_script_exists : bool;
  config_file : option (gmap string json);
  metrics_cpu : option (list string);
  metrics_cuda : option (list string);
  summary : option string;
  launches : nat;
  stdout : list event;
}.

Definition print (e : event) : M world unit :=
  modify (λ w, World (run_script_exists w) (config_file w) (metrics_cpu w)
                 (metrics_cuda w) (summary w) (launches w) (stdout w ++ [e])).

(** [read_json_config(CONFIG_PATH)] *)
Definition read_json_config : M world (gmap string json) :=
  w ← get;
  match config_file w with
  | Some data => ret data
  | None => raise FileNotFoundError
  end.

(** [write_json_config(CONFIG_PATH, data)] *)
Definition write_json_config (data : gmap string json) : M world unit :=
  modify (λ w, World (run_script_exists w) (Some data) (metrics_cpu w)
                 (metrics_cuda w) (summary w) (launches w) (stdout w)).

(** [summary_csv.open("w")] *)
Definition open_summary : M world unit :=
  modify (λ w, World (run_script_exists w) (config_file w) (metrics_cpu w)
                 (metrics_cuda w) (Some EmptyString) (launches w) (stdout w)).

(** [outf.write(text)] *)
Definition outf_write (text : string) : M world unit :=
  modify (λ w, World (run_script_exists w) (config_file w) (metrics_cpu w)
                 (metrics_cuda w) (Some (default EmptyString (summary w) +:+ text))
                 (launches w) (stdout w)).

Definition newline : string := String lf EmptyString.

Definition header_cols : list string :=
  ["batch_name"; "target"; "input_file"; "t_end"; "dt"; "eps"; "particles";
   "threads_or_device"; "total_steps"; "total_time_s_or_ms"; "min_step";
   "avg_step"; "steps_per_sec"; "trajectories_path"].

(** [metrics.get(key, default)] *)
Definition get_or (metrics : gmap string string) (key fallback : string) : string :=
  default fallback (metrics !! key).

(** *** [collect_metrics] *)

Definition metrics_file (target : string) (w : world) : option (list string) :=
  if decide (target = "cpu") then metrics_cpu w else metrics_cuda w.

(** One turn of the loop over the lines of a metrics file. *)
Definition metrics_line (result : gmap string string) (line : string)
    : gmap string string :=
  let line := strip line in
  if bool_decide (line = EmptyString) || negb (contains ":" line) then result
  else
    let '(key, value) := split1 ":" line in
    <[strip key := strip (default EmptyString value)]> result.

Definition collect_metrics (target : string) : M world (option (gmap string string)) :=
  w ← get;
  match metrics_file target w with
  | None => print (WarnMetricsNotFound target);; ret None
  | Some lines => ret (Some (foldl metrics_line ∅ lines))
  end.

(** *** The rows of the summary *)

Definition cpu_row (batch_name target input_rel : string)
    (metrics : gmap string string) : result (list string) :=
  let particles := get_or metrics "Particles" EmptyString in
  let eps := get_or metrics "eps" EmptyString in
  let t_end_str := get_or metrics "t_end" EmptyString in
  let dt_str := get_or metrics "dt" EmptyString in
  let threads := get_or metrics "OpenMP threads" EmptyString in
  let total_steps := get_or metrics "Total steps" EmptyString in
  total_time_s ← first_word (get_or metrics "Total compute time (sum of per-step)" EmptyString);
  min_step_s ← first_word (get_or metrics "Min step time" EmptyString);
  avg_step_s ← first_word (get_or metrics "Avg step time" EmptyString);
  steps_per_sec ← first_word (get_or metrics "Steps per second (avg)" EmptyString);
  let traj := get_or metrics "Output trajectories" EmptyString in
  let input_file := get_or metrics "Input file" input_rel in
  Ok [batch_name; target; input_file; t_end_str; dt_str; eps; particles;
      threads; total_steps; total_time_s; min_step_s; avg_step_s;
      steps_per_sec; traj].

Definition cuda_row (batch_name target input_rel : string)
    (metrics : gmap string string) : result (list string) :=
  let particles := get_or metrics "Particles" EmptyString in
  let eps := get_or metrics "eps" EmptyString in
  let t_end_str := get_or metrics "t_end" EmptyString in
  let dt_str := get_or metrics "dt" EmptyString in
  let device_name := get_or metrics "CUDA device" EmptyString in
  let total_steps := get_or metrics "Total steps" EmptyString in
  total_ms ← first_word (get_or metrics "Total kernel time (reset+forces+step)" EmptyString);
  min_ms ← first_word (get_or metrics "Min step time" EmptyString);
  avg_ms ← first_word (get_or metrics "Avg step time" EmptyString);
  steps_per_sec ← first_word (get_or metrics "Steps per second (avg)" EmptyString);
  let traj := get_or metrics "Output trajectories" EmptyString in
  let input_file := get_or metrics "Input file" input_rel in
  Ok [batch_name; target; input_file; t_end_str; dt_str; eps; particles;
      device_name; total_steps; total_ms; min_ms; avg_ms;
      steps_per_sec; traj].

(** *** The configuration written before a launch *)

Definition new_config_for (original_config : option (gmap string json))
    (cfg : batch) : gmap string json :=
  let new_config : gmap string json :=
    <["input" := JStr (input cfg)]>
      (<["dt" := JNum (dt cfg)]> (<["tend" := JNum (tend cfg)]> ∅)) in
  match original_config with
  | Some original =>
      if decide (size original = 0%nat) then new_config
      else
        foldl (λ new_config extra_key,
                 match original !! extra_key, new_config !! extra_key with
                 | Some v, None => <[extra_key := v]> new_config
                 | _, _ => new_config
                 end)
              new_config ["n"; "seed"]
  | None => new_config
  end.

(** The arguments of the launcher for a target. *)
Definition target_args (target : string) : list string :=
  if decide (target = "cpu") then ["cpu"; "-NoPlot"; "-NoTrajectories"]
  else ["cuda"; "-NoPlot"; "-NoTrajectories"].

(** *** [main] *)
Section Batch.

(** The launcher [run_once.ps1]: from what it finds (the world), its
    arguments and the value of [OMP_NUM_THREADS] when the caller sets
    it, the return code and the two metrics files it leaves behind.
    The launcher writes neither the configuration nor the summary. *)
Variable run_once :
  world → list string → option string →
  Z * option (list string) * option (list string).

Definition run_powershell_script (args : list string) (env : option string)
    : M world Z :=
  let cmd := ["powershell"; "-ExecutionPolicy"; "Bypass"; "-File"; RUN_SCRIPT] ++ args in
  print (Running cmd);;
  w ← get;
  let '(returncode, cpu, cuda) := run_once w args env in
  modify (λ w, World (run_script_exists w) (config_file w) cpu cuda
                 (summary w) (S (launches w)) (stdout w));;
  ret returncode.

(** The body of the loop over [TARGETS]. *)
Definition run_target (cfg : batch) (target : string) : M world unit :=
  let batch_name := name cfg in
  print (RunningTarget target batch_name);;
  let args := target_args target in
  rc ← run_powershell_script args None;
  if decide (rc ≠ 0) then print (ErrorRunFailed target batch_name rc)
  else
    metrics ← collect_metrics target;
    match metrics with
    | None => ret tt
    | Some metrics =>
        row ← lift (if decide (target = "cpu")
                    then cpu_row batch_name target (input cfg) metrics
                    else cuda_row batch_name target (input cfg) metrics);
        outf_write (join "," row +:+ newline);;
        print (OkFinished target batch_name)
    end.

(** The body of the loop over [BATCH_CONFIGS]. *)
Definition run_batch (original_config : option (gmap string json))
    (cfg : batch) : M world unit :=
  print Rule;;
  print (BatchConfig (name cfg));;
  print (BatchParams (tend cfg) (dt cfg) (input cfg));;
  print Rule;;
  write_json_config (new_config_for original_config cfg);;
  for_each TARGETS (run_target cfg).

(** The trial of the loop over [BATCH_CONFIGS_OMP]: the launch with
    [OMP_NUM_THREADS] set, and what follows it. *)
Definition run_omp (cfg : batch) (threads_req : Z) : M world unit :=
  let batch_name := name cfg in
  let env := Some (str_of_int threads_req) in
  print (RunningOmp batch_name threads_req);;
  rc ← run_powershell_script ["cpu"; "-NoPlot"; "-NoTrajectories"] env;
  if decide (rc ≠ 0) then print (ErrorOmpRunFailed batch_name rc)
  else
    metrics ← collect_metrics "cpu";
    match metrics with
    | None => ret tt
    | Some metrics =>
        row ← lift (cpu_row batch_name "cpu" (input cfg) metrics);
        outf_write (join "," row +:+ newline);;
        print (OkFinishedOmp batch_name threads_req
                 (get_or metrics "OpenMP threads" EmptyString))
    end.

(** The body of the loop over [BATCH_CONFIGS_OMP]. *)
Definition run_batch_omp (original_config : option (gmap string json))
    (cfg : batch) : M world unit :=
  threads_req ← lift (match threads cfg with
                      | Some n => Ok n
                      | None => Raise KeyError
                      end);
  print Rule;;
  print (OmpBatchConfig (name cfg));;
  print (OmpBatchParams (tend cfg) (dt cfg) (input cfg) threads_req);;
  print Rule;;
  write_json_config (new_config_for original_config cfg);;
  run_omp cfg threads_req.

(** [try: original_config = read_json_config(CONFIG_PATH)
     except FileNotFoundError: print(..)] *)
Definition read_original_config : M world (option (gmap string json)) := λ w,
  match read_json_config w with
  | (Ok data, w') => (Ok (Some data), w')
  | (Raise FileNotFoundError, w') => (print WarnNoOriginalConfig;; ret None) w'
  | (Raise e, w') => (Raise e, w')
  end.

Definition main : M world Z :=
  print InfoRepoRoot;;
  print InfoConfigFile;;
  print InfoRunScript;;
  w ← get;
  if run_script_exists w then
    original_config ← read_original_config;
    open_summary;;
    outf_write (join "," header_cols +:+ newline);;
    for_each BATCH_CONFIGS (run_batch original_config);;
    for_each BATCH_CONFIGS_OMP (run_batch_omp original_config);;
    match original_config with
    | Some data => write_json_config data;; print ConfigRestored
    | None => ret tt
    end;;
    print SummaryWritten;;
    print Done;;
    ret 0
  else
    print ErrorNoRunScript;;
    ret 1.

End Batch.

End Task2.

(** * Properties *)

Import Task1.

(** Closed goals on decidable data are settled by evaluation. *)
Ltac by_decide :=
  lazymatch goal with
  | |- ?P => apply (bool_decide_unpack P); vm_compute; exact I
  end.

(** Unfolds the monad operations at the head of a computation. *)
Ltac monad_unfold :=
  unfold mbind, M_bind, bind, mret, M_ret, ret, raise, lift, get, modify in *;
  simpl in *.

(** ** Vocabulary of the statements *)

(** Two runs for each of 1, 2 and 4 threads, on 100 points. *)
Definition scenario : list timing :=
  [(1, 100, 1, q 10 1); (1, 100, 2, q 10 1);
   (2, 100, 1, q 6 1); (2, 100, 2, q 5 1);
   (4, 100, 1, q 3 1); (4, 100, 2, q 3 1)].

(** The executable of the scenario: its [k]-th run reports the [k]-th
    duration on its error stream. *)
Definition scenario_stub (k : nat) (nthreads npoints : Z) : Z * list string :=
  (0, ["TIME_SECONDS=" +:+ default "0" (["10"; "10"; "6"; "5"; "3"; "3"] !! k)]).

(** [x] rounded to three decimals is [m / 1000]. *)
Definition rounds3 (x : float) (m : Z) : bool :=
  bool_decide (round_half_even (this x * inject_Z 1000) = m).

(** The durations, in input order, of the trials with key [nt]. *)
Definition times_of {F} (nt : Z) (timings : list (Z * Z * Z * F)) : list F :=
  omap (λ '(nt', _, _, t), if decide (nt' = nt) then Some t else None) timings.

(** The sizes, in input order, of the trials with key [nt]. *)
Definition npoints_of {F} (nt : Z) (timings : list (Z * Z * Z * F)) : list Z :=
  omap (λ '(nt', np, _, _), if decide (nt' = nt) then Some np else None) timings.

(** Key and mean of an aggregated row. *)
Definition key_mean {F} (row : Z * Z * F) : Z * F := (row.1.1, row.2).

(** The keys of the second loop, in the order it visits them. *)
Definition keys_of {F} (timings : list (Z * Z * Z * F)) : list Z :=
  sorted (elements (dom (group_timings timings).1)).

(** The row the second loop builds for the key [nt]. *)
Definition row_of (timings : list timing) (nt : Z) : aggregated :=
  (nt, default 0 (last (npoints_of nt timings)),
   (fsum (times_of nt timings)
      / float_of_int (Z.of_nat (length (times_of nt timings))))%Qc).

(** Decimal digits, and the strings made of them. *)
Definition is_digit (c : ascii) : bool :=
  bool_decide (48 ≤ N_of_ascii c ≤ 57)%N.

Fixpoint all_digits (s : string) : bool :=
  match s with
  | EmptyString => true
  | String c r => is_digit c && all_digits r
  end.

(** A fixed six-decimal numeral: an optional minus sign, at least one
    digit, a point and exactly six digits. *)
Definition is_fixed6 (s : string) : bool :=
  let body := match s with String "-" r => r | _ => s end in
  match split1 "." body with
  | (ip, Some fp) =>
      negb (bool_decide (ip = EmptyString)) && all_digits ip
      && all_digits fp && bool_decide (String.length fp = 6%nat)
  | (_, None) => false
  end.

(** The characters of a number as the writers print it. *)
Definition is_numeric_char (c : ascii) : bool :=
  is_digit c || bool_decide (c = "-"%char) || bool_decide (c = "."%char).

(** The strings made of such characters. *)
Fixpoint numeric (s : string) : bool :=
  match s with
  | EmptyString => true
  | String c r => is_numeric_char c && numeric r
  end.

(** A metrics file as the simulator writes it. *)
Definition demo_metrics : list string :=
  ["Particles: 100"; "eps: 0.001"; "Total steps: 1000";
   "Total compute time (sum of per-step): 1.5 s";
   "Total kernel time (reset+forces+step): 15 ms";
   "Min step time: 0.1 s"; "Avg step time: 0.2 s";
   "Steps per second (avg): 5"].

(** The first launch fails, the second leaves no metrics file, the others
    leave both files. *)
Definition demo_launcher (w : Task2.world) (args : list string)
    (env : option string) : Z * option (list string) * option (list string) :=
  match Task2.launches w with
  | 0%nat => (1, None, None)
  | 1%nat => (0, None, None)
  | _ => (0, Some demo_metrics, Some demo_metrics)
  end.

(** A configuration file found at the start, and the world around it. *)
Definition demo_config : gmap string Task2.json :=
  {[ "tend" := Task2.JNum (q 1 1); "n" := Task2.JNum (q 100 1) ]}.

Definition demo_world : Task2.world :=
  Task2.World true (Some demo_config) None None None 0 [].






(** An executable whose third run ends with the return code 1. *)
Definition crashing_stub (k : nat) (nthreads npoints : Z) : Z * list string :=
  if decide (k = 2%nat) then (1, []) else scenario_stub k nthreads npoints.


(** A computation of the N-body batch whose only exception is [IndexError]. *)
Definition index_error_only {A} (c : M Task2.world A) : Prop :=
  ∀ w e w', c w = (Raise e, w') → e = IndexError.

(** [main] of the N-body batch around its two loops. *)
Definition main_around
    (loop1 loop2 : option (gmap string Task2.json) → M Task2.world unit)
    : M Task2.world Z :=
  Task2.print Task2.InfoRepoRoot;;
  Task2.print Task2.InfoConfigFile;;
  Task2.print Task2.InfoRunScript;;
  w ← get;
  if Task2.run_script_exists w then
    original_config ← Task2.read_original_config;
    Task2.open_summary;;
    Task2.outf_write (join "," Task2.header_cols +:+ Task2.newline);;
    loop1 original_config;;
    loop2 original_config;;
    match original_config with
    | Some data => Task2.write_json_config data;; Task2.print Task2.ConfigRestored
    | None => mret tt
    end;;
    Task2.print Task2.SummaryWritten;;
    Task2.print Task2.Done;;
    mret 0
  else
    Task2.print Task2.ErrorNoRunScript;;
    mret 1.

(** The trial [row] is what the run number [k] of the executable gave: the
    run ended with code 0 and the parser read the duration of the row in
    its error stream. *)
Definition trial_ok (py_float : string → option float)
    (mandelbrot : nat → Z → Z → Z * list string) (k : nat) (row : timing) : Prop :=
  (mandelbrot k row.1.1.1 row.1.1.2).1 = 0
  ∧ parse_metric py_float "TIME_SECONDS" (mandelbrot k row.1.1.1 row.1.1.2).2
    = Ok row.2.

(** The trials of a batch, without their durations, in the order of the
    two nested loops. *)
Definition trial_keys (nthreads_list : list Z) (npoints runs_per_config : Z)
    : list (Z * Z * Z) :=
  concat ((λ nt, (λ r, (nt, npoints, r)) <$> seqZ 1 runs_per_config)
            <$> nthreads_list).

(** A computation of the Mandelbrot batch that writes no file and leaves
    the executable where it is. *)
Definition frame {A} (c : M world A) : Prop :=
  ∀ w r w', c w = (r, w') →
    exe_exists w' = exe_exists w ∧ files w' = files w ∧ (runs w ≤ runs w')%nat.

(** A computation of the Mandelbrot batch that, when it makes the run
    number [k], raises [e] at once. *)
Definition stopping (e : exn) (k : nat) {A} (c : M world A) : Prop :=
  ∀ w r w', exe_exists w = true → c w = (r, w') →
    (runs w ≤ k < runs w')%nat → r = Raise e ∧ runs w' = S k.

(** The five lines [main] prints before it collects the trials. *)
Definition main_prelude (nthreads_list : list Z) (npoints runs_per_config : Z)
    : M world unit :=
  print InfoExecutable;;
  print InfoResultsDir;;
  print (InfoNthreadsList nthreads_list);;
  print (InfoNpoints npoints);;
  print (InfoRunsPerConfig runs_per_config).

(** The metrics of which a row of the CPU target, and of the CUDA target,
    takes the first word. *)
Definition cpu_timing_keys : list string :=
  ["Total compute time (sum of per-step)"; "Min step time"; "Avg step time";
   "Steps per second (avg)"].

Definition cuda_timing_keys : list string :=
  ["Total kernel time (reset+forces+step)"; "Min step time"; "Avg step time";
   "Steps per second (avg)"].

(** [s] has a blank character. *)
Fixpoint has_space (s : string) : bool :=
  match s with
  | EmptyString => false
  | String c r => isspace c || has_space r
  end.

(** [f] is the first word of [s]: [s] without its leading blanks starts
    with [f], which is not empty and has no blank, and goes on, if at all,
    with a blank. *)
Definition is_first_word (f s : string) : Prop :=
  ∃ rest,
    lstrip s = f +:+ rest ∧ f ≠ EmptyString ∧ has_space f = false
    ∧ match rest with
      | EmptyString => True
      | String c _ => isspace c = true
      end.

(** The text that the rows written to the summary make. *)
Definition summary_rows (rows : list (list string)) : string :=
  String.concat EmptyString ((λ row, join "," row +:+ Task2.newline) <$> rows).

(** A computation of the N-body batch that makes at most [n] launches,
    exactly [n] when it returns, and that appends to the summary at most
    one row for each launch, every row with one field for each column. *)
Definition batch_step (n : nat) {A} (c : M Task2.world A) : Prop :=
  ∀ w r w' s, c w = (r, w') → Task2.summary w = Some s →
    (Task2.launches w ≤ Task2.launches w' ≤ Task2.launches w + n)%nat
    ∧ (∀ a, r = Ok a → Task2.launches w' = (Task2.launches w + n)%nat)
    ∧ ∃ rows,
        Task2.summary w' = Some (s +:+ summary_rows rows)
        ∧ Forall (λ row, length row = length Task2.header_cols) rows
        ∧ (length rows ≤ Task2.launches w' - Task2.launches w)%nat.

(** A computation of the N-body batch that returns and writes no row. *)
Definition rowless {A} (c : M Task2.world A) : Prop :=
  ∀ w r w', c w = (r, w') → (∃ a, r = Ok a) ∧ Task2.summary w' = Task2.summary w.

(** A computation of the N-body batch that leaves the configuration file
    as it is. *)
Definition keeps_config {A} (c : M Task2.world A) : Prop :=
  ∀ w r w', c w = (r, w') → Task2.config_file w' = Task2.config_file w.

(** The metrics file of a target among the two that a launch leaves. *)
Definition left_for (target : string)
    (out : Z * option (list string) * option (list string))
    : option (list string) :=
  if decide (target = "cpu") then out.1.2 else out.2.

(** Every launch fails and leaves both metrics files. *)
Definition failing_launcher (w : Task2.world) (args : list string)
    (env : option string) : Z * option (list string) * option (list string) :=
  (3, Some demo_metrics, Some demo_metrics).

(** The row the second loop builds for the key [nt], on binary64 floats. *)
Definition row64_of (timings : list Task1_64.timing) (nt : Z) : Task1_64.aggregated :=
  (nt, default 0 (last (npoints_of nt timings)),
   match Binary64.mean (times_of nt timings) with
   | Ok mean_t => mean_t
   | Raise _ => S754_nan
   end).

(** The average of rationals: their sum over their number. *)
Definition exact_average (l : list Qc) : Qc :=
  (foldr Qcplus 0 l / Qc_of_Z (Z.of_nat (length l)))%Qc.

(** [sum(durations) / len(durations)], as Python computes it on floats. *)
Definition float_average (durations : list Binary64.double) : result Binary64.double :=
  Binary64.truediv_int (Binary64.sum durations) (Z.of_nat (length durations)).

(** The doubles nearest to 0.1, 0.2 and 0.3, and three trials of one key
    with these durations. *)
Definition tenths : list Binary64.double :=
  [Binary64.of_ratio 1 10; Binary64.of_ratio 2 10; Binary64.of_ratio 3 10].

Definition tenths_trials : list Task1_64.timing :=
  [(1, 100, 1, Binary64.of_ratio 1 10); (1, 100, 2, Binary64.of_ratio 2 10);
   (1, 100, 3, Binary64.of_ratio 3 10)].

(** A double that is an infinity or a NaN. *)
Definition special (x : Binary64.double) : Prop := Binary64.is_finite x = false.

(** The number that a string of decimal digits denotes, after [acc]. *)
Fixpoint digits_number (acc : Z) (s : string) : Z :=
  match s with
  | EmptyString => acc
  | String c r => digits_number (10 * acc + (Z.of_N (N_of_ascii c) - 48)) r
  end.

(** [n] is an integer nearest to the rational [x], the even one of the two
    when [x] is half-way. *)
Definition nearest_even (x : Q) (n : Z) : Prop :=
  2 * Z.abs (n * Z.pos (Qden x) - Qnum x) ≤ Z.pos (Qden x)
  ∧ (2 * Z.abs (n * Z.pos (Qden x) - Qnum x) = Z.pos (Qden x) → Z.even n = true).

(** [s] is the rational [x] printed with six decimals: a minus sign when
    [negative], the digits of an integer part, a point and six digits,
    which together denote the millionths nearest to the absolute value of
    [x]. *)
Definition six_decimals (negative : bool) (x : Q) (s : string) : Prop :=
  ∃ ip fp,
    s = (if negative then "-" else EmptyString) +:+ ip +:+ String "." fp
    ∧ all_digits ip = true ∧ ip ≠ EmptyString
    ∧ all_digits fp = true ∧ String.length fp = 6%nat
    ∧ nearest_even (Qabs x * inject_Z 1000000)
        (digits_number 0 ip * 1000000 + digits_number 0 fp).

(** The line of a trial on binary64 floats, with no quoting. *)
Definition timings_line64 (row : Task1_64.timing) : string :=
  let '(nt, np, r, t) := row in
  str_of_int nt +:+ "," +:+ str_of_int np +:+ "," +:+ str_of_int r +:+ ","
    +:+ Binary64.format_6f t +:+ crlf.

(** The line of a metrics row on binary64 floats, with no quoting. *)
Definition metrics_line64 (row : Task1_64.metric) : string :=
  let '(nt, np, t, sp, ep) := row in
  str_of_int nt +:+ "," +:+ str_of_int np +:+ "," +:+ Binary64.format_6f t +:+ ","
    +:+ Binary64.format_6f sp +:+ "," +:+ Binary64.format_6f ep +:+ crlf.

(** How a float column is written: a finite value with six decimals,
    and a minus sign when its sign bit is set; the others by name. *)
Definition float_field (x : Binary64.double) : Prop :=
  match x with
  | S754_nan => Binary64.format_6f x = "nan"
  | S754_infinity s => Binary64.format_6f x = if s then "-inf" else "inf"
  | S754_zero s => six_decimals s 0 (Binary64.format_6f x)
  | S754_finite s _ _ =>
      six_decimals s (this (Binary64.exact x)) (Binary64.format_6f x)
  end.

(** Two aggregated rows with finite means, 2 and 2^-1023, whose quotient
    is beyond the doubles. *)
Definition steep_rows : list Task1_64.aggregated :=
  [(1, 100, Binary64.of_ratio 2 1); (2, 100, Binary64.of_ratio 1 (2 ^ 1023))].

(** ** The end-to-end scenario *)

(** C1. With thread counts 1, 2 and 4, 100 points and two runs each, the
    runs reporting 10, 10, 6, 5, 3 and 3 seconds, the trials collected are
    those of the scenario; aggregation gives the mean durations 10, 5.5 and
    3 in ascending thread order, and the metrics computed from them are the
    speedups 1, 20/11, 10/3 and the efficiencies 1, 10/11, 5/6, which round
    to 1.818, 3.333, 0.909 and 0.833; nothing is printed. *)
Theorem scenario_pipeline :
  (collect_timings float_of_decimal scenario_stub [1; 2; 4] 100 2
     (World true 0 ∅ [])).1 = Ok scenario
  ∧ aggregate_by_nthreads scenario
    = Ok [(1, 100, q 10 1); (2, 100, q 11 2); (4, 100, q 3 1)]
  ∧ (rows ← aggregate_by_nthreads scenario; (compute_metrics rows []).1)
    = Ok [(1, 100, q 10 1, q 1 1, q 1 1);
          (2, 100, q 11 2, q 20 11, q 10 11);
          (4, 100, q 3 1, q 10 3, q 5 6)]
  ∧ (compute_metrics [(1, 100, q 10 1); (2, 100, q 11 2); (4, 100, q 3 1)] []).2
    = []
  ∧ rounds3 (q 20 11) 1818 = true ∧ rounds3 (q 10 3) 3333 = true
  ∧ rounds3 (q 10 11) 909 = true ∧ rounds3 (q 5 6) 833 = true.
Proof.
  split_and!; try (vm_compute; reflexivity); by_decide.
Qed.

(** ** Aggregation *)

Lemma group_timings_snoc {F} (timings : list (Z * Z * Z * F)) row :
  group_timings (timings ++ [row]) = group_step (group_timings timings) row.
Proof. unfold group_timings. by rewrite foldl_app. Qed.

Lemma times_of_snoc {F} nt (timings : list (Z * Z * Z * F)) nt' np r t :
  times_of nt (timings ++ [(nt', np, r, t)])
  = times_of nt timings ++ (if decide (nt' = nt) then [t] else []).
Proof. unfold times_of. rewrite omap_app. simpl. by case_decide. Qed.

Lemma npoints_of_snoc {F} nt (timings : list (Z * Z * Z * F)) nt' np r t :
  npoints_of nt (timings ++ [(nt', np, r, t)])
  = npoints_of nt timings ++ (if decide (nt' = nt) then [np] else []).
Proof. unfold npoints_of. rewrite omap_app. simpl. by case_decide. Qed.

Lemma group_timings_times {F} (timings : list (Z * Z * Z * F)) nt :
  (group_timings timings).1 !! nt
  = match times_of nt timings with [] => None | l => Some l end.
Proof.
  induction timings as [|[[[nt' np] r] t] timings IH] using rev_ind; [done|].
  rewrite group_timings_snoc, times_of_snoc. simpl.
  destruct (decide (nt' = nt)) as [->|Hne].
  - rewrite lookup_insert_eq, IH.
    by destruct (times_of nt timings).
  - rewrite lookup_insert_ne, IH, app_nil_r by done. done.
Qed.

Lemma group_timings_npoints {F} (timings : list (Z * Z * Z * F)) nt :
  (group_timings timings).2 !! nt = last (npoints_of nt timings).
Proof.
  induction timings as [|[[[nt' np] r] t] timings IH] using rev_ind; [done|].
  rewrite group_timings_snoc, npoints_of_snoc. simpl.
  destruct (decide (nt' = nt)) as [->|Hne].
  - by rewrite lookup_insert_eq, last_snoc.
  - by rewrite lookup_insert_ne, IH, app_nil_r by done.
Qed.

Lemma times_of_length {F} nt (timings : list (Z * Z * Z * F)) :
  length (npoints_of nt timings) = length (times_of nt timings).
Proof.
  induction timings as [|[[[nt' np] r] t] timings IH] using rev_ind; [done|].
  rewrite npoints_of_snoc, times_of_snoc, !length_app, IH.
  by case_decide.
Qed.

Lemma rmap_ok {A B} (f : A → result B) (g : A → B) (l : list A) :
  Forall (λ x, f x = Ok (g x)) l → rmap f l = Ok (g <$> l).
Proof.
  induction 1 as [|x l Hx _ IH]; [done|].
  simpl. rewrite Hx. simpl. by rewrite IH.
Qed.

Lemma elem_of_keys_of {F} (timings : list (Z * Z * Z * F)) nt :
  nt ∈ keys_of timings ↔ times_of nt timings ≠ [].
Proof.
  unfold keys_of, sorted. rewrite merge_sort_Permutation, elem_of_elements.
  rewrite elem_of_dom, group_timings_times.
  destruct (times_of nt timings); split; intros H; try done.
Qed.

Lemma keys_of_sorted {F} (timings : list (Z * Z * Z * F)) :
  StronglySorted Z.lt (keys_of timings).
Proof.
  assert (StronglySorted Z.le (keys_of timings)) as Hle.
  { apply (StronglySorted_merge_sort Z.le). }
  assert (NoDup (keys_of timings)) as Hnd.
  { unfold keys_of, sorted. rewrite merge_sort_Permutation. apply NoDup_elements. }
  induction Hle as [|k l _ IH Hall]; [constructor|].
  apply NoDup_cons in Hnd as [Hk Hnd].
  constructor; [by apply IH|].
  apply Forall_forall. intros k' Hk'.
  rewrite Forall_forall in Hall. specialize (Hall k' Hk').
  assert (k ≠ k') by (intros ->; done). lia.
Qed.

Global Instance times_of_Permutation {F} nt :
  Proper ((≡ₚ) ==> (≡ₚ)) (times_of (F:=F) nt).
Proof. intros l1 l2 Hl. unfold times_of. by rewrite Hl. Qed.

Lemma keys_of_Permutation {F} (timings timings' : list (Z * Z * Z * F)) :
  timings' ≡ₚ timings → keys_of timings' = keys_of timings.
Proof.
  intros Hp.
  apply (Sorted_unique Z.le).
  - apply (Sorted_merge_sort Z.le).
  - apply (Sorted_merge_sort Z.le).
  - apply NoDup_Permutation.
    + unfold keys_of, sorted. rewrite merge_sort_Permutation. apply NoDup_elements.
    + unfold keys_of, sorted. rewrite merge_sort_Permutation. apply NoDup_elements.
    + intros nt. rewrite !elem_of_keys_of.
      pose proof (times_of_Permutation nt _ _ Hp) as Ht.
      split; intros Hne Hnil; apply Hne; rewrite Hnil in Ht.
      * by apply Permutation_nil_r in Ht.
      * by apply Permutation_nil_l in Ht.
Qed.

Lemma aggregate_by_nthreads_eq timings :
  aggregate_by_nthreads timings = Ok (row_of timings <$> keys_of timings).
Proof.
  unfold aggregate_by_nthreads.
  destruct (group_timings timings) as [times_by_nt npoints_by_nt] eqn:Hg.
  assert (keys_of timings = sorted (elements (dom times_by_nt))) as <-.
  { unfold keys_of. by rewrite Hg. }
  apply rmap_ok, Forall_forall. intros nt Hnt.
  apply elem_of_keys_of in Hnt.
  pose proof (group_timings_times timings nt) as Ht.
  pose proof (group_timings_npoints timings nt) as Hn.
  pose proof (times_of_length nt timings) as Hlen.
  rewrite Hg in Ht, Hn. simpl in Ht, Hn.
  unfold row_of, getitem. rewrite Ht, Hn.
  destruct (times_of nt timings) as [|t l] eqn:Hl; [done|]. simpl.
  destruct (npoints_of nt timings) as [|np l'] using rev_ind; [done|].
  by rewrite last_snoc.
Qed.

Lemma fsum_Permutation l1 l2 : l1 ≡ₚ l2 → fsum l1 = fsum l2.
Proof.
  intros Hl. unfold fsum.
  apply (foldr_permutation_proper (=) Qcplus); [apply _| |done].
  intros a1 a2 b. by rewrite !Qcplus_assoc, (Qcplus_comm a1 a2).
Qed.

(** *** Aggregation on binary64 floats *)

Lemma forallb_Permutation {A} (f : A → bool) l1 l2 :
  l1 ≡ₚ l2 → forallb f l1 = forallb f l2.
Proof.
  induction 1 as [|x l1 l2 _ IH|x y l|l1 l2 l3 _ IH1 _ IH2]; simpl.
  - done.
  - by rewrite IH.
  - by rewrite !andb_assoc, (andb_comm (f y)).
  - by rewrite IH1.
Qed.

Lemma add_special acc x :
  special x → special (Binary64.add acc x).
Proof.
  unfold special, Binary64.add.
  destruct x as [sx|sx| |sx mx ex]; try done;
    destruct acc as [sa|sa| |sa ma ea]; try done; by destruct sa, sx.
Qed.

Lemma add_special_swap acc a b :
  Binary64.is_finite acc = false ∨ Binary64.is_zero acc = true →
  special a → special b →
  Binary64.add (Binary64.add acc a) b = Binary64.add (Binary64.add acc b) a.
Proof.
  unfold special, Binary64.add.
  destruct acc as [sa|sa| |sa ma ea]; intros [?|?]; try done;
    destruct a as [s1|s1| |s1 m1 e1]; try done;
    destruct b as [s2|s2| |s2 m2 e2]; try done;
    intros _ _;
    repeat match goal with s : bool |- _ => destruct s end; done.
Qed.

Lemma foldl_add_special l1 l2 acc :
  l1 ≡ₚ l2 → Forall special l1 →
  Binary64.is_finite acc = false ∨ Binary64.is_zero acc = true →
  foldl Binary64.add acc l1 = foldl Binary64.add acc l2.
Proof.
  intros Hp. revert acc.
  induction Hp as [|x l1 l2 _ IH|x y l|l1 l2 l3 Hp1 IH1 _ IH2];
    intros acc Hall Hacc; simpl.
  - done.
  - apply Forall_cons in Hall as [Hx Hall]. apply IH; [done|].
    left. by apply add_special.
  - apply Forall_cons in Hall as [Hy Hall]. apply Forall_cons in Hall as [Hx Hall].
    by rewrite (add_special_swap acc y x).
  - rewrite IH1 by done. apply IH2; [|done]. by rewrite <-Hp1.
Qed.

Lemma mean64_Permutation l1 l2 :
  l1 ≡ₚ l2 → Binary64.mean l1 = Binary64.mean l2.
Proof.
  intros Hp. unfold Binary64.mean.
  destruct l1 as [|x1 l1], l2 as [|x2 l2].
  - done.
  - by apply Permutation_nil_l in Hp.
  - by apply Permutation_nil_r in Hp.
  - rewrite (forallb_Permutation _ _ _ Hp).
    destruct (forallb Binary64.is_finite (x2 :: l2)).
    + rewrite (fsum_Permutation (Binary64.exact <$> x1 :: l1)
                 (Binary64.exact <$> x2 :: l2)) by (by rewrite Hp).
      by rewrite (Permutation_length Hp).
    + f_equal. apply foldl_add_special; [by rewrite Hp| |by right].
      apply Forall_forall. by intros x [Hx _]%list_elem_of_filter.
Qed.

Lemma mean64_Ok l : l ≠ [] → ∃ mean_t, Binary64.mean l = Ok mean_t.
Proof.
  destruct l as [|x l]; [done|]. intros _. unfold Binary64.mean.
  destruct (forallb _ _); by eexists.
Qed.

Lemma aggregate64_eq timings :
  Task1_64.aggregate_by_nthreads timings = Ok (row64_of timings <$> keys_of timings).
Proof.
  unfold Task1_64.aggregate_by_nthreads.
  destruct (group_timings timings) as [times_by_nt npoints_by_nt] eqn:Hg.
  assert (keys_of timings = sorted (elements (dom times_by_nt))) as <-.
  { unfold keys_of. by rewrite Hg. }
  apply rmap_ok, Forall_forall. intros nt Hnt.
  apply elem_of_keys_of in Hnt.
  pose proof (group_timings_times timings nt) as Ht.
  pose proof (group_timings_npoints timings nt) as Hn.
  pose proof (times_of_length nt timings) as Hlen.
  rewrite Hg in Ht, Hn. simpl in Ht, Hn.
  unfold row64_of, getitem. rewrite Ht, Hn.
  destruct (mean64_Ok _ Hnt) as [mean_t Hmean].
  destruct (times_of nt timings) as [|t l] eqn:Hl; [done|].
  cbn [mbind result_bind rbind]. rewrite Hmean. cbn [rbind].
  destruct (npoints_of nt timings) as [|np l'] using rev_ind; [done|].
  by rewrite last_snoc.
Qed.

(** C5, as the claim states it: the mean of a group is the sum of its
    durations over their number. It fails on three trials of one key with
    durations 0.1, 0.2 and 0.3: the mean reported is the double 0.2, the
    exact average rounded once, while [sum(durations) / len(durations)] is
    0.20000000000000004 when the sum is the left-to-right float sum, and
    0.19999999999999998 when it is the exact sum rounded; and the exact
    average itself is no double. *)
Lemma mean_is_not_sum_over_count :
  Task1_64.aggregate_by_nthreads tenths_trials
  = Ok [(1, 100, S754_finite false 7205759403792794 (-55))]
  ∧ float_average tenths = Ok (S754_finite false 7205759403792795 (-55))
  ∧ Binary64.truediv_int
      (Binary64.of_fraction (foldr Qcplus 0%Qc (Binary64.exact <$> tenths))) 3
    = Ok (S754_finite false 7205759403792793 (-55))
  ∧ bool_decide (Binary64.exact (S754_finite false 7205759403792794 (-55))
                 = exact_average (Binary64.exact <$> tenths)) = false.
Proof. split_and!; vm_compute; reflexivity. Qed.

(** C5, amended. Aggregation never fails. Its rows come in strictly
    ascending key order, one for each key that has a trial; the mean of a
    row is [statistics.mean] of the durations of the trials with its key,
    which for finite durations is their exact average rounded once to the
    nearest double; and keys, means and order are the same for every
    permutation of the trials. *)
Theorem aggregate_by_nthreads_groups (timings : list Task1_64.timing) :
  ∃ rows,
    Task1_64.aggregate_by_nthreads timings = Ok rows
    ∧ StronglySorted Z.lt ((λ row, (key_mean row).1) <$> rows)
    ∧ (∀ nt, nt ∈ ((λ row, (key_mean row).1) <$> rows) ↔ times_of nt timings ≠ [])
    ∧ Forall (λ row,
        let group := times_of (key_mean row).1 timings in
        group ≠ []
        ∧ Binary64.mean group = Ok (key_mean row).2
        ∧ (forallb Binary64.is_finite group = true →
           (key_mean row).2
           = Binary64.of_fraction (exact_average (Binary64.exact <$> group))))
        rows
    ∧ ∀ timings', timings' ≡ₚ timings →
        ∃ rows', Task1_64.aggregate_by_nthreads timings' = Ok rows'
                 ∧ key_mean <$> rows' = key_mean <$> rows.
Proof.
  exists (row64_of timings <$> keys_of timings).
  assert (((λ row, (key_mean row).1) <$> (row64_of timings <$> keys_of timings))
          = keys_of timings) as Hkeys.
  { rewrite <-list_fmap_compose. rewrite <-(list_fmap_id (keys_of timings)) at 2.
    by apply list_fmap_ext. }
  split_and!.
  - apply aggregate64_eq.
  - rewrite Hkeys. apply keys_of_sorted.
  - intros nt. rewrite Hkeys. apply elem_of_keys_of.
  - apply Forall_fmap, Forall_forall. intros nt Hnt. simpl.
    apply elem_of_keys_of in Hnt.
    destruct (mean64_Ok _ Hnt) as [mean_t Hmean]. rewrite Hmean.
    split_and!; [done..|].
    intros Hfinite. unfold Binary64.mean in Hmean.
    destruct (times_of nt timings) as [|t l]; [done|].
    rewrite Hfinite in Hmean. injection Hmean as <-.
    unfold exact_average, fsum. by rewrite length_fmap.
  - intros timings' Hp. exists (row64_of timings' <$> keys_of timings'). split.
    + apply aggregate64_eq.
    + rewrite (keys_of_Permutation _ _ Hp), <-!list_fmap_compose.
      apply list_fmap_ext. intros _ nt _. simpl. unfold key_mean. simpl.
      by rewrite (mean64_Permutation _ _ (times_of_Permutation nt _ _ Hp)).
Qed.

(** C10. Aggregation never fails, and the size it reports for a key is the
    size of the last trial with that key in input order: when two trials of
    a key differ in size the later one wins, as for key 2 below. *)
Theorem aggregate_by_nthreads_npoints (timings : list timing) :
  (∃ rows,
     aggregate_by_nthreads timings = Ok rows
     ∧ Forall (λ '(nt, np, _), last (npoints_of nt timings) = Some np) rows)
  ∧ aggregate_by_nthreads [(2, 100, 1, q 5 1); (1, 100, 1, q 9 1); (2, 200, 2, q 7 1)]
    = Ok [(1, 100, q 9 1); (2, 200, q 6 1)].
Proof.
  split; [|by_decide].
  exists (row_of timings <$> keys_of timings). split.
  - apply aggregate_by_nthreads_eq.
  - apply Forall_fmap, Forall_forall. intros nt Hnt. simpl.
    apply elem_of_keys_of in Hnt.
    pose proof (times_of_length nt timings) as Hlen.
    destruct (npoints_of nt timings) as [|np l] using rev_ind.
    + destruct (times_of nt timings); done.
    + by rewrite last_snoc.
Qed.

(** ** Baseline, speedup and efficiency *)

Lemma find_base_first pre np t post :
  Forall (λ row : aggregated, row.1.1 ≠ 1) pre →
  find_base (pre ++ (1, np, t) :: post) = Some (1, np, t).
Proof.
  unfold find_base.
  induction 1 as [|[[nt np'] t'] pre Hne _ IH]; [done|].
  simpl in *. by rewrite bool_decide_eq_false_2.
Qed.

Lemma find_base_none rows :
  Forall (λ row : aggregated, row.1.1 ≠ 1) rows → find_base rows = None.
Proof.
  unfold find_base.
  induction 1 as [|[[nt np'] t'] pre Hne _ IH]; [done|].
  simpl in *. by rewrite bool_decide_eq_false_2.
Qed.

(** [min_by] returns the first element whose key is smallest. *)
Lemma min_by_first_min {A} (key : A → Z) pre0 x post0 l :
  Forall (λ r, key x < key r) pre0 →
  Forall (λ r, key x ≤ key r) post0 →
  ∃ pre y post,
    pre0 ++ x :: post0 ++ l = pre ++ y :: post
    ∧ min_by key x l = y
    ∧ Forall (λ r, key y < key r) pre
    ∧ Forall (λ r, key y ≤ key r) post.
Proof.
  revert pre0 x post0.
  induction l as [|z l IH]; intros pre0 x post0 Hpre Hpost.
  - exists pre0, x, post0. by rewrite app_nil_r.
  - simpl. case_decide as Hlt.
    + destruct (IH (pre0 ++ x :: post0) z []) as (pre & y & post & Heq & ? & ? & ?).
      * rewrite Forall_app, Forall_cons. split_and!; [|done|].
        -- eapply Forall_impl; [exact Hpre|]. simpl. lia.
        -- eapply Forall_impl; [exact Hpost|]. simpl. lia.
      * constructor.
      * exists pre, y, post. split; [|done].
        rewrite <-Heq. simpl. by rewrite <-app_assoc.
    + destruct (IH pre0 x (post0 ++ [z])) as (pre & y & post & Heq & ? & ? & ?).
      * done.
      * rewrite Forall_app, Forall_singleton. split; [done|lia].
      * exists pre, y, post. split; [|done].
        rewrite <-Heq. by rewrite <-app_assoc.
Qed.

Lemma compute_metrics_with_base rows np t out :
  find_base rows = Some (1, np, t) →
  compute_metrics rows out = (rmap (metric_of t) rows, out).
Proof.
  intros Hb. unfold compute_metrics.
  destruct rows as [|first rest]; [done|].
  rewrite Hb. done.
Qed.

Lemma compute_metrics_fallback first rest out :
  find_base (first :: rest) = None →
  compute_metrics (first :: rest) out
  = (rmap (metric_of (min_by by_nthreads first rest).2) (first :: rest),
     out ++ [InfoNoBase (min_by by_nthreads first rest).1.1]).
Proof.
  intros Hb. unfold compute_metrics. rewrite Hb.
  by destruct (min_by by_nthreads first rest) as [[k np] t].
Qed.

(** C2. On a non-empty sequence: when a row has key 1, the mean of the
    first such row is the baseline and nothing is printed; otherwise the
    baseline is the mean of the first row with the smallest key, and the
    substitution is printed with that key. For keys 2, 4 and 8 the baseline
    is the mean of key 2 and the message names 2. *)
Theorem compute_metrics_baseline (rows : list aggregated) (out : list event) :
  (∀ pre np t post,
     rows = pre ++ (1, np, t) :: post →
     Forall (λ row, row.1.1 ≠ 1) pre →
     compute_metrics rows out = (rmap (metric_of t) rows, out))
  ∧ (rows ≠ [] →
     Forall (λ row, row.1.1 ≠ 1) rows →
     ∃ pre k np t post,
       rows = pre ++ (k, np, t) :: post
       ∧ Forall (λ row, k < row.1.1) pre
       ∧ Forall (λ row, k ≤ row.1.1) post
       ∧ compute_metrics rows out
         = (rmap (metric_of t) rows, out ++ [InfoNoBase k]))
  ∧ (∀ np2 np4 np8 t2 t4 t8,
       compute_metrics [(2, np2, t2); (4, np4, t4); (8, np8, t8)] out
       = (rmap (metric_of t2) [(2, np2, t2); (4, np4, t4); (8, np8, t8)],
          out ++ [InfoNoBase 2])).
Proof.
  split_and!.
  - intros pre np t post -> Hpre.
    eapply compute_metrics_with_base. by apply find_base_first.
  - intros Hne Hno. destruct rows as [|first rest]; [done|].
    rewrite compute_metrics_fallback by by apply find_base_none.
    destruct (min_by_first_min by_nthreads [] first [] rest)
      as (pre & [[k np] t] & post & Heq & Hmin & Hpre & Hpost); [constructor..|].
    simpl in Heq. exists pre, k, np, t, post. by rewrite Hmin.
  - done.
Qed.

Lemma compute_metrics_shape rows out :
  rows ≠ [] →
  ∃ t_base out', compute_metrics rows out = (rmap (metric_of t_base) rows, out').
Proof.
  intros Hne. destruct rows as [|first rest]; [done|].
  destruct (find_base (first :: rest)) as [[[nt np] t]|] eqn:Hb.
  - exists t, out. unfold compute_metrics. by rewrite Hb.
  - eexists _, _. by apply compute_metrics_fallback.
Qed.

Lemma metric_of_raise t_base row e :
  metric_of t_base row = Raise e → e = ZeroDivisionError.
Proof.
  destruct row as [[nt np] t]. unfold metric_of, truediv. simpl.
  repeat (case_decide; simpl); congruence.
Qed.

Lemma rmap_metric_of_zero t_base rows nt np :
  (nt, np, 0%Qc) ∈ rows → rmap (metric_of t_base) rows = Raise ZeroDivisionError.
Proof.
  induction rows as [|row rows IH]; intros Hin.
  - by apply elem_of_nil in Hin.
  - simpl. destruct (metric_of t_base row) as [m|e] eqn:Hrow; simpl.
    + apply elem_of_cons in Hin as [<-|Hin].
      * unfold metric_of, truediv in Hrow.
        by destruct (decide (0 = 0)%Qc).
      * by rewrite IH.
    + by rewrite (metric_of_raise _ _ _ Hrow).
Qed.

(** C6. When a row of the aggregated sequence has a zero mean duration,
    [compute_metrics] raises [ZeroDivisionError]: it returns no speedup and
    no efficiency at all. *)
Theorem compute_metrics_zero_duration (rows : list aggregated) (out : list event)
    (nt np : Z) :
  (nt, np, 0%Qc) ∈ rows →
  (compute_metrics rows out).1 = Raise ZeroDivisionError.
Proof.
  intros Hin.
  destruct (compute_metrics_shape rows out) as (t_base & out' & ->).
  - intros ->. by apply elem_of_nil in Hin.
  - simpl. by eapply rmap_metric_of_zero.
Qed.

Lemma compute_metrics_zero_duration_witness :
  (compute_metrics [(1, 100, q 10 1); (2, 100, 0%Qc)] []).1
  = Raise ZeroDivisionError.
Proof.
  apply (compute_metrics_zero_duration _ _ 2 100).
  apply list_elem_of_further, list_elem_of_here.
Defined.

(** ** The metric parser *)

Lemma append_nil (s : string) : EmptyString +:+ s = s.
Proof. reflexivity. Qed.

Lemma append_cons c (s1 s2 : string) : String c s1 +:+ s2 = String c (s1 +:+ s2).
Proof. reflexivity. Qed.

Lemma append_assoc (s1 s2 s3 : string) : (s1 +:+ s2) +:+ s3 = s1 +:+ s2 +:+ s3.
Proof.
  induction s1 as [|c s1 IH]; [done|].
  by rewrite !append_cons, IH.
Qed.

Lemma startswith_app (p r : string) : startswith (p +:+ r) p = true.
Proof.
  unfold startswith. induction p as [|c p IH].
  - rewrite append_nil. by destruct r.
  - rewrite append_cons. simpl. destruct (ascii_dec c c); [exact IH|done].
Qed.

Lemma split1_app sep (a b : string) :
  contains sep a = false → split1 sep (a +:+ String sep b) = (a, Some b).
Proof.
  induction a as [|c a IH]; intros Ha.
  - rewrite append_nil. simpl. by rewrite decide_True.
  - rewrite append_cons. simpl in *.
    apply orb_false_iff in Ha as [Hc Ha].
    apply bool_decide_eq_false in Hc.
    rewrite decide_False by done. by rewrite IH.
Qed.

Section Parser.

Variable py_float : string → option float.

Lemma scan_metric_skip key pre lines :
  Forall (λ l, startswith (strip l) (key +:+ "=") = false) pre →
  scan_metric py_float key (pre ++ lines) = scan_metric py_float key lines.
Proof. induction 1 as [|l pre Hl _ IH]; simpl; [done|]. by rewrite Hl. Qed.

(** C3. The lines are scanned in order: the lines before the first one
    whose stripped form starts with the key and an equals sign are passed
    over, and the result is the number that [float] reads in what follows
    the prefix on that line, stripped and with commas turned into points
    (the error of [float] when it reads none). *)
Theorem parse_metric_first_match (key : string) (pre : list string)
    (line : string) (post : list string) (rest : string) :
  contains "=" key = false →
  Forall (λ l, startswith (strip l) (key +:+ "=") = false) pre →
  strip line = key +:+ "=" +:+ rest →
  parse_metric py_float key (pre ++ line :: post)
  = match py_float (replace "," "." (strip rest)) with
    | Some t => Ok t
    | None => Raise (ValueError BadFloatLiteral)
    end.
Proof.
  intros Hkey Hpre Hline. unfold parse_metric.
  rewrite scan_metric_skip by done. simpl.
  rewrite Hline, <-append_assoc, startswith_app, append_assoc.
  change ("=" +:+ rest) with (String "=" rest).
  unfold split1_second. rewrite (split1_app "=" key rest) by done. simpl.
  by destruct (py_float _).
Qed.

(** C4. When no line has the prefix, the parser raises the error of the
    script for a missing metric, and [run_mandelbrot] raises it in turn: no
    number is returned in its place. *)
Theorem parse_metric_not_found (mandelbrot : nat → Z → Z → Z * list string)
    (key : string) (lines : list string) (nthreads npoints : Z) (w : world) :
  Forall (λ l, startswith (strip l) (key +:+ "=") = false) lines →
  parse_metric py_float key lines = Raise (ValueError CouldNotParseTimeSeconds)
  ∧ (key = "TIME_SECONDS" →
     exe_exists w = true →
     mandelbrot (runs w) nthreads npoints = (0, lines) →
     (run_mandelbrot py_float mandelbrot nthreads npoints w).1
     = Raise (ValueError CouldNotParseTimeSeconds)).
Proof.
  intros Hlines.
  assert (parse_metric py_float key lines
          = Raise (ValueError CouldNotParseTimeSeconds)) as Hparse.
  { unfold parse_metric.
    rewrite <-(app_nil_r lines), scan_metric_skip by done. done. }
  split; [done|].
  intros -> Hexe Hrun. unfold run_mandelbrot.
  monad_unfold. rewrite Hexe, Hrun. unfold count_run. monad_unfold.
  by rewrite Hparse.
Qed.

End Parser.

Lemma parse_metric_first_match_witness :
  parse_metric float_of_decimal "TIME_SECONDS"
    ["junk"; "TIME_SECONDS=1,234567"; "more junk"]
  = Ok (q 1234567 1000000).
Proof.
  etrans.
  - apply (parse_metric_first_match float_of_decimal "TIME_SECONDS"
             ["junk"] "TIME_SECONDS=1,234567" ["more junk"] "1,234567").
    + reflexivity.
    + repeat constructor.
    + reflexivity.
  - vm_compute. reflexivity.
Defined.

Lemma parse_metric_not_found_witness :
  parse_metric float_of_decimal "TIME_SECONDS" ["junk"; "TIME=3"]
  = Raise (ValueError CouldNotParseTimeSeconds)
  ∧ ("TIME_SECONDS" = "TIME_SECONDS" →
     exe_exists (World true 0 ∅ []) = true →
     (λ _ _ _, (0, ["junk"; "TIME=3"])) (runs (World true 0 ∅ [])) 1 100
       = (0, ["junk"; "TIME=3"]) →
     (run_mandelbrot float_of_decimal (λ _ _ _, (0, ["junk"; "TIME=3"])) 1 100
        (World true 0 ∅ [])).1
     = Raise (ValueError CouldNotParseTimeSeconds)).
Proof.
  apply (parse_metric_not_found float_of_decimal
           (λ _ _ _, (0, ["junk"; "TIME=3"])) "TIME_SECONDS").
  repeat constructor.
Defined.

(** ** The CSV writers *)

Lemma all_digits_app s1 s2 :
  all_digits (s1 +:+ s2) = all_digits s1 && all_digits s2.
Proof.
  induction s1 as [|c s1 IH]; [done|].
  rewrite append_cons. simpl. by rewrite IH, andb_assoc.
Qed.

Lemma numeric_app s1 s2 : numeric (s1 +:+ s2) = numeric s1 && numeric s2.
Proof.
  induction s1 as [|c s1 IH]; [done|].
  rewrite append_cons. simpl. by rewrite IH, andb_assoc.
Qed.

Lemma all_digits_numeric s : all_digits s = true → numeric s = true.
Proof.
  induction s as [|c s IH]; [done|]. simpl.
  intros [Hc Hs]%andb_true_iff. unfold is_numeric_char.
  by rewrite Hc, IH.
Qed.

Lemma contains_numeric c s :
  is_numeric_char c = false → numeric s = true → contains c s = false.
Proof.
  intros Hc. induction s as [|a s IH]; [done|]. simpl.
  intros [Ha Hs]%andb_true_iff. rewrite IH by done.
  rewrite orb_false_r. apply bool_decide_eq_false. intros ->. congruence.
Qed.

Lemma contains_digits c s :
  is_digit c = false → all_digits s = true → contains c s = false.
Proof.
  intros Hc. induction s as [|a s IH]; [done|]. simpl.
  intros [Ha Hs]%andb_true_iff. rewrite IH by done.
  rewrite orb_false_r. apply bool_decide_eq_false. intros ->. congruence.
Qed.

Lemma numeric_needs_quote s : numeric s = true → needs_quote s = false.
Proof.
  intros Hs. unfold needs_quote.
  by rewrite !contains_numeric.
Qed.

Lemma pretty_N_char_digit x : is_digit (pretty_N_char x) = true.
Proof. unfold pretty_N_char. by repeat case_match. Qed.

Lemma pretty_N_go_digits x s :
  ∃ d, pretty_N_go x s = d +:+ s ∧ all_digits d = true
       ∧ ((0 < x)%N → d ≠ EmptyString).
Proof.
  revert s. induction (N.lt_wf_0 x) as [x _ IH]; intros s.
  assert (x = 0 ∨ 0 < x)%N as [->|Hx] by lia.
  - exists EmptyString. rewrite pretty_N_go_0. split_and!; [done..|lia].
  - rewrite pretty_N_go_step by done.
    destruct (IH (x `div` 10)%N) with (s := String (pretty_N_char (x `mod` 10)) s)
      as (d & -> & Hd & _).
    { by apply N.div_lt. }
    exists (d +:+ String (pretty_N_char (x `mod` 10)) EmptyString). split_and!.
    + by rewrite append_assoc.
    + rewrite all_digits_app, Hd. simpl. by rewrite pretty_N_char_digit.
    + intros _. by destruct d.
Qed.

Lemma pretty_N_digits (x : N) :
  all_digits (pretty x) = true ∧ pretty x ≠ EmptyString.
Proof.
  unfold pretty, pretty_N. case_decide as Hx; [done|].
  destruct (pretty_N_go_digits x EmptyString) as (d & -> & Hd & Hne).
  assert (d +:+ EmptyString = d) as ->.
  { clear. induction d as [|c d IH]; [done|]. by rewrite append_cons, IH. }
  split; [done|]. apply Hne. lia.
Qed.

Lemma str_of_int_digits n :
  0 ≤ n → all_digits (str_of_int n) = true ∧ str_of_int n ≠ EmptyString.
Proof.
  intros Hn. unfold str_of_int, pretty, pretty_Z.
  destruct n as [|p|p]; [done| |lia].
  apply (pretty_N_digits (N.pos p)).
Qed.

Lemma str_of_int_numeric n : numeric (str_of_int n) = true.
Proof.
  destruct (decide (0 ≤ n)) as [Hn|Hn].
  - by apply all_digits_numeric, str_of_int_digits.
  - destruct n as [|p|p]; [lia..|].
    unfold str_of_int, pretty, pretty_Z.
    rewrite numeric_app. simpl.
    apply all_digits_numeric, (pretty_N_digits (N.pos p)).
Qed.

Lemma digit_is_digit n : is_digit (digit n) = true.
Proof. apply pretty_N_char_digit. Qed.

Lemma pad6_digits n :
  all_digits (pad6 n) = true ∧ String.length (pad6 n) = 6%nat.
Proof. unfold pad6. simpl. by rewrite !digit_is_digit. Qed.

Lemma round_half_even_nonneg x : 0 ≤ Qnum x → 0 ≤ round_half_even x.
Proof.
  intros Hx. unfold round_half_even.
  assert (0 ≤ Qnum x `div` Z.pos (Qden x)) by (apply Z.div_pos; lia).
  repeat case_match; lia.
Qed.

(** What [format_6f] is made of. *)
Lemma format_6f_shape t :
  ∃ sign ip fp,
    format_6f t = sign +:+ ip +:+ String "." fp
    ∧ (sign = EmptyString ∨ sign = "-")
    ∧ all_digits ip = true ∧ ip ≠ EmptyString
    ∧ all_digits fp = true ∧ String.length fp = 6%nat.
Proof.
  unfold format_6f.
  set (n := round_half_even (Qabs (this t) * inject_Z 1000000)).
  assert (0 ≤ n) as Hn.
  { apply round_half_even_nonneg. destruct (this t) as [a b]. simpl. lia. }
  destruct (str_of_int_digits (n `div` 1000000)) as [Hip Hne].
  { apply Z.div_pos; lia. }
  destruct (pad6_digits n) as [Hfp Hlen].
  exists (if decide (t < 0)%Qc then "-" else EmptyString),
    (str_of_int (n `div` 1000000)), (pad6 n).
  split_and!; try done. case_decide; auto.
Qed.

Lemma format_6f_fixed6 t : is_fixed6 (format_6f t) = true.
Proof.
  destruct (format_6f_shape t) as (sign & ip & fp & -> & Hsign & Hip & Hne & Hfp & Hlen).
  assert (is_fixed6 (ip +:+ String "." fp) = true) as Hbody.
  { unfold is_fixed6.
    assert (match ip +:+ String "." fp with
            | String "-" r => r
            | _ => ip +:+ String "." fp
            end = ip +:+ String "." fp) as ->.
    { destruct ip as [|c ip]; [done|]. rewrite append_cons.
      simpl in Hip. apply andb_true_iff in Hip as [Hc _].
      destruct c as [[] [] [] [] [] [] [] []]; done. }
    rewrite split1_app.
    - rewrite Hip, Hfp, Hlen. by destruct ip.
    - by apply contains_digits. }
  destruct Hsign as [->| ->]; [done|].
  unfold is_fixed6 in *. rewrite append_cons, append_nil.
  destruct ip as [|c ip]; [done|]. rewrite append_cons in *.
  simpl in Hip. apply andb_true_iff in Hip as [Hc _].
  destruct c as [[] [] [] [] [] [] [] []]; done.
Qed.

Lemma format_6f_numeric t : numeric (format_6f t) = true.
Proof.
  destruct (format_6f_shape t) as (sign & ip & fp & -> & Hsign & Hip & Hne & Hfp & Hlen).
  rewrite !numeric_app. simpl.
  rewrite (all_digits_numeric ip), (all_digits_numeric fp) by done.
  by destruct Hsign as [->| ->].
Qed.

Lemma csv_field_numeric s : numeric s = true → csv_field s = s.
Proof. intros Hs. unfold csv_field. by rewrite numeric_needs_quote. Qed.

(** *** The value of a printed float *)

Lemma digits_number_app acc a b :
  digits_number acc (a +:+ b) = digits_number (digits_number acc a) b.
Proof.
  revert acc. induction a as [|c a IH]; intros acc; [done|].
  rewrite append_cons. simpl. by rewrite IH.
Qed.

Lemma pretty_N_char_number (k : N) :
  (k < 10)%N → Z.of_N (N_of_ascii (pretty_N_char k)) - 48 = Z.of_N k.
Proof.
  intros Hk.
  assert (k = 0 ∨ k = 1 ∨ k = 2 ∨ k = 3 ∨ k = 4 ∨ k = 5 ∨ k = 6 ∨ k = 7
          ∨ k = 8 ∨ k = 9)%N as Hcases by lia.
  destruct_or!; by subst.
Qed.

Lemma pretty_N_go_number x s :
  ∃ d, pretty_N_go x s = d +:+ s ∧ digits_number 0 d = Z.of_N x.
Proof.
  revert s. induction (N.lt_wf_0 x) as [x _ IH]; intros s.
  assert (x = 0 ∨ 0 < x)%N as [->|Hx] by lia.
  - exists EmptyString. by rewrite pretty_N_go_0.
  - rewrite pretty_N_go_step by done.
    destruct (IH (x `div` 10)%N) with (s := String (pretty_N_char (x `mod` 10)) s)
      as (d & -> & Hd).
    { by apply N.div_lt. }
    exists (d +:+ String (pretty_N_char (x `mod` 10)) EmptyString). split.
    + by rewrite append_assoc.
    + rewrite digits_number_app, Hd. cbn [digits_number].
      rewrite pretty_N_char_number by (apply N.mod_lt; lia).
      rewrite N2Z.inj_div, N2Z.inj_mod. change (Z.of_N 10) with 10.
      pose proof (Z.div_mod (Z.of_N x) 10 ltac:(done)). lia.
Qed.

Lemma pretty_N_number (x : N) : digits_number 0 (pretty x) = Z.of_N x.
Proof.
  unfold pretty, pretty_N. case_decide as Hx; [by subst|].
  destruct (pretty_N_go_number x EmptyString) as (d & -> & Hd).
  by rewrite digits_number_app.
Qed.

Lemma str_of_int_number n : 0 ≤ n → digits_number 0 (str_of_int n) = n.
Proof.
  intros Hn. unfold str_of_int, pretty, pretty_Z.
  destruct n as [|p|p]; [done| |lia].
  apply (pretty_N_number (N.pos p)).
Qed.

Lemma digit_number n : Z.of_N (N_of_ascii (digit n)) - 48 = n `mod` 10.
Proof.
  pose proof (Z.mod_pos_bound n 10 ltac:(done)) as Hr.
  unfold digit. rewrite pretty_N_char_number; lia.
Qed.

Lemma six_digits_sum n :
  10 * (10 * (10 * (10 * (10 * (10 * 0 + (n `div` 100000) `mod` 10)
                            + (n `div` 10000) `mod` 10)
                      + (n `div` 1000) `mod` 10)
                + (n `div` 100) `mod` 10)
          + (n `div` 10) `mod` 10)
    + n `mod` 10
  = n `mod` 1000000.
Proof.
  assert (∀ a k, 0 < k → a `mod` (10 * k) = a `mod` 10 + 10 * ((a `div` 10) `mod` k))
    as Hstep.
  { intros a k Hk. by rewrite Z.rem_mul_r by lia. }
  replace (n `mod` 1000000) with (n `mod` (10 * 100000)) by reflexivity.
  rewrite Hstep by lia.
  replace ((n `div` 10) `mod` 100000)
    with ((n `div` 10) `mod` (10 * 10000)) by reflexivity.
  rewrite Hstep by lia.
  replace (((n `div` 10) `div` 10) `mod` 10000)
    with (((n `div` 10) `div` 10) `mod` (10 * 1000)) by reflexivity.
  rewrite Hstep by lia.
  replace ((((n `div` 10) `div` 10) `div` 10) `mod` 1000)
    with ((((n `div` 10) `div` 10) `div` 10) `mod` (10 * 100)) by reflexivity.
  rewrite Hstep by lia.
  replace (((((n `div` 10) `div` 10) `div` 10) `div` 10) `mod` 100)
    with (((((n `div` 10) `div` 10) `div` 10) `div` 10) `mod` (10 * 10)) by reflexivity.
  rewrite Hstep by lia.
  rewrite !Z.div_div by lia.
  change (10 * 10) with 100. change (100 * 10) with 1000.
  change (1000 * 10) with 10000. change (10000 * 10) with 100000.
  lia.
Qed.

Lemma pad6_number n : digits_number 0 (pad6 n) = n `mod` 1000000.
Proof.
  unfold pad6. cbn [digits_number]. rewrite !digit_number.
  apply six_digits_sum.
Qed.

Lemma round_half_even_nearest x : nearest_even x (round_half_even x).
Proof.
  unfold nearest_even, round_half_even.
  destruct x as [a b]. cbn [Qnum Qden].
  pose proof (Z.div_mod a (Z.pos b) ltac:(done)) as Hdm.
  pose proof (Z.mod_pos_bound a (Z.pos b) ltac:(done)) as Hr.
  destruct (Z.compare_spec (2 * (a `mod` Z.pos b)) (Z.pos b)) as [Heq|Hlt|Hgt].
  - destruct (Z.even (a `div` Z.pos b)) eqn:Heven.
    + split; [lia|done].
    + split; [lia|]. intros _. rewrite Z.even_add, Heven. done.
  - split; lia.
  - split; lia.
Qed.

(** What [format_6f] prints is its argument with six decimals. *)
Lemma format_6f_value (t : float) :
  six_decimals (bool_decide (t < 0)%Qc) (this t) (format_6f t).
Proof.
  unfold six_decimals, format_6f.
  set (n := round_half_even (Qabs (this t) * inject_Z 1000000)).
  assert (0 ≤ n) as Hn.
  { apply round_half_even_nonneg. destruct (this t) as [a b]. simpl. lia. }
  destruct (str_of_int_digits (n `div` 1000000)) as [Hip Hne].
  { apply Z.div_pos; lia. }
  destruct (pad6_digits n) as [Hfp Hlen].
  exists (str_of_int (n `div` 1000000)), (pad6 n). split_and!; try done.
  - by case_bool_decide; [rewrite decide_True|rewrite decide_False].
  - rewrite str_of_int_number by (apply Z.div_pos; lia).
    rewrite pad6_number.
    replace (n `div` 1000000 * 1000000 + n `mod` 1000000) with n
      by (pose proof (Z.div_mod n 1000000 ltac:(done)); lia).
    apply round_half_even_nearest.
Qed.

(** *** The writers on binary64 floats *)

Lemma format64_numeric t :
  Binary64.is_finite t = true → numeric (Binary64.format_6f t) = true.
Proof.
  destruct t as [[]| | |s m e]; try done; intros _.
  apply format_6f_numeric.
Qed.

Lemma format64_fixed6 t :
  Binary64.is_finite t = true → is_fixed6 (Binary64.format_6f t) = true.
Proof.
  destruct t as [[]| | |s m e]; try done; intros _.
  apply format_6f_fixed6.
Qed.

Lemma exact_negative s m e :
  bool_decide (Binary64.exact (S754_finite s m e) < 0)%Qc = s.
Proof.
  assert (0 < Qnum (Qpower (2 # 1) e)) as Hpow.
  { pose proof (Qpower_0_lt (2 # 1) e ltac:(done)) as H.
    unfold Qlt in H. simpl in H. lia. }
  unfold Binary64.exact.
  destruct s; [apply bool_decide_eq_true_2|apply bool_decide_eq_false_2];
    unfold Qclt; cbn [this Q2Qc]; rewrite (Qred_lt _ 0);
    unfold Qlt, Qmult; simpl; nia.
Qed.

Lemma format64_float_field t : float_field t.
Proof.
  destruct t as [s|s| |s m e]; try done.
  - pose proof (format_6f_value 0%Qc) as H. simpl in H.
    destruct H as (ip & fp & Heq & Hrest).
    exists ip, fp. split; [|done].
    unfold Binary64.format_6f. rewrite Heq. by destruct s.
  - unfold float_field, Binary64.format_6f.
    rewrite <-(exact_negative s m e) at 1. apply format_6f_value.
Qed.

Lemma csv_field_format64 t :
  csv_field (Binary64.format_6f t) = Binary64.format_6f t.
Proof.
  destruct (Binary64.is_finite t) eqn:Hfin.
  - by apply csv_field_numeric, format64_numeric.
  - by destruct t as [|[]| |].
Qed.

Lemma timings_row_line64 row :
  writerow (Task1_64.timings_cells row) = timings_line64 row.
Proof.
  destruct row as [[[nt np] r] t]. unfold writerow, timings_line64, join. simpl.
  rewrite csv_field_format64, !csv_field_numeric by apply str_of_int_numeric.
  by rewrite !append_assoc.
Qed.

Lemma metrics_row_line64 row :
  writerow (Task1_64.metrics_cells row) = metrics_line64 row.
Proof.
  destruct row as [[[[nt np] t] sp] ep]. unfold writerow, metrics_line64, join. simpl.
  rewrite !csv_field_format64, !csv_field_numeric by apply str_of_int_numeric.
  by rewrite !append_assoc.
Qed.

(** C7, as the claim states it: every numeric field has six decimals. It
    fails on the integer columns: the trial (1, 100, 1, 10.0) is written as
    the line 1,100,1,10.000000. It fails on float columns too: with the
    finite means 2 and 2^-1023 the second speedup and efficiency are
    infinite, and written as inf. *)
Lemma csv_fields_not_fixed6 :
  forallb is_fixed6
    (cell_text <$> Task1_64.timings_cells (1, 100, 1, Binary64.of_ratio 10 1))
  = false
  ∧ Task1_64.timings_text [(1, 100, 1, Binary64.of_ratio 10 1)]
    = "nthreads,npoints,run_index,time" +:+ crlf +:+ "1,100,1,10.000000" +:+ crlf
  ∧ (Task1_64.compute_metrics steep_rows []).1
    = Ok [(1, 100, Binary64.of_ratio 2 1, Binary64.of_ratio 1 1, Binary64.of_ratio 1 1);
          (2, 100, Binary64.of_ratio 1 (2 ^ 1023), S754_infinity false,
           S754_infinity false)]
  ∧ Task1_64.metrics_text
      [(1, 100, Binary64.of_ratio 2 1, Binary64.of_ratio 1 1, Binary64.of_ratio 1 1);
       (2, 100, Binary64.of_ratio 1 (2 ^ 1023), S754_infinity false,
        S754_infinity false)]
    = "nthreads,npoints,mean_time,acceleration,efficiency" +:+ crlf
        +:+ "1,100,2.000000,1.000000,1.000000" +:+ crlf
        +:+ "2,100,0.000000,inf,inf" +:+ crlf.
Proof. split_and!; vm_compute; reflexivity. Qed.

(** C7, amended. The writers produce the header line and one line per row,
    in order, fields separated by commas and each line ended by CR LF; the
    integer columns are written as plain integers and every float column
    with exactly six decimals when its value is finite, as [inf], [-inf]
    or [nan] when it is not; the six decimals of a finite value are a minus
    sign when the sign bit is set, then the digits of the millionths
    nearest to its absolute value, ties to even; the text replaces whatever
    the destination held and no other file changes; writing the same rows
    again leaves the same state. *)
Theorem csv_writers (rows : list Task1_64.timing) (mrows : list Task1_64.metric)
    (path : string) (w : world) :
  Task1_64.timings_text rows
  = "nthreads,npoints,run_index,time" +:+ crlf
      +:+ String.concat EmptyString (timings_line64 <$> rows)
  ∧ Task1_64.metrics_text mrows
    = "nthreads,npoints,mean_time,acceleration,efficiency" +:+ crlf
        +:+ String.concat EmptyString (metrics_line64 <$> mrows)
  ∧ Forall (λ '(_, _, _, t), float_field t) rows
  ∧ Forall (λ '(_, _, t, sp, ep), float_field t ∧ float_field sp ∧ float_field ep)
      mrows
  ∧ (∀ x, Binary64.is_finite x = true → is_fixed6 (Binary64.format_6f x) = true)
  ∧ (let w' := (Task1_64.save_timings_csv rows path w).2 in
     (Task1_64.save_timings_csv rows path w).1 = Ok tt
     ∧ files w' = <[path := Task1_64.timings_text rows]> (files w)
     ∧ Task1_64.save_timings_csv rows path w' = (Ok tt, w'))
  ∧ (let w' := (Task1_64.save_metrics_csv mrows path w).2 in
     (Task1_64.save_metrics_csv mrows path w).1 = Ok tt
     ∧ files w' = <[path := Task1_64.metrics_text mrows]> (files w)
     ∧ Task1_64.save_metrics_csv mrows path w' = (Ok tt, w')).
Proof.
  split_and!.
  - unfold Task1_64.timings_text.
    rewrite (list_fmap_ext (writerow ∘ Task1_64.timings_cells) timings_line64 rows)
      by (intros; apply timings_row_line64).
    done.
  - unfold Task1_64.metrics_text.
    rewrite (list_fmap_ext (writerow ∘ Task1_64.metrics_cells) metrics_line64 mrows)
      by (intros; apply metrics_row_line64).
    done.
  - apply Forall_forall. intros [[[nt np] r] t] _. apply format64_float_field.
  - apply Forall_forall. intros [[[[nt np] t] sp] ep] _.
    split_and!; apply format64_float_field.
  - apply format64_fixed6.
  - cbv zeta. split_and!; [done..|].
    unfold Task1_64.save_timings_csv, write_file. monad_unfold.
    by rewrite insert_insert_eq.
  - cbv zeta. split_and!; [done..|].
    unfold Task1_64.save_metrics_csv, write_file. monad_unfold.
    by rewrite insert_insert_eq.
Qed.

(** ** The N-body batch *)

Section NBody.

Import Task2.

Variable run_once :
  Task2.world → list string → option string →
  Z * option (list string) * option (list string).

Lemma main_eq :
  Task2.main run_once
  = main_around
      (λ original, for_each BATCH_CONFIGS (run_batch run_once original))
      (λ original, for_each BATCH_CONFIGS_OMP (run_batch_omp run_once original)).
Proof. reflexivity. Qed.

Lemma main_around_restores loop1 loop2 w c code w' :
  Task2.config_file w = Some c →
  main_around loop1 loop2 w = (Ok code, w') →
  Task2.config_file w' = Some c.
Proof.
  intros Hc Hmain. unfold main_around in Hmain.
  unfold Task2.read_original_config, Task2.read_json_config, Task2.print,
    Task2.open_summary, Task2.outf_write, Task2.write_json_config in Hmain.
  monad_unfold.
  destruct (Task2.run_script_exists w).
  - rewrite Hc in Hmain. simpl in Hmain.
    destruct (loop1 _ _) as [[[]|e1] w1]; [|done].
    destruct (loop2 _ _) as [[[]|e2] w2]; [|done].
    by simplify_eq.
  - by simplify_eq.
Qed.

(** C8. Whenever the batch runs to its end, whatever the launches returned
    and whichever trials were skipped, the configuration file holds again
    the dictionary it held at the start, if it held one. *)
Theorem main_restores_config (w : Task2.world) (c : gmap string json)
    (code : Z) (w' : Task2.world) :
  Task2.config_file w = Some c →
  Task2.main run_once w = (Ok code, w') →
  Task2.config_file w' = Some c.
Proof. rewrite main_eq. apply main_around_restores. Qed.






End NBody.

(** ** The Mandelbrot batch stops at a trial without metric *)

Section Abort.

Variable py_float : string → option float.
Variable mandelbrot : nat → Z → Z → Z * list string.

(** The run number [k] of the executable can be without metric: for all
    arguments it ends with code 0 and no line of its error stream has the
    prefix. *)
Variable k : nat.
Hypothesis no_metric : ∀ nt np,
  (mandelbrot k nt np).1 = 0
  ∧ Forall (λ l, startswith (strip l) "TIME_SECONDS=" = false) (mandelbrot k nt np).2.








End Abort.

(** ** Runs of the N-body batch on sample launchers *)

Lemma main_restores_config_witness :
  Task2.config_file (Task2.main demo_launcher demo_world).2 = Some demo_config.
Proof.
  apply (main_restores_config demo_launcher demo_world demo_config 0).
  - reflexivity.
  - vm_compute. reflexivity.
Defined.


(** ** How the N-body batch can end *)

Section Outcomes.

Import Task2.

Variable run_once :
  Task2.world → list string → option string →
  Z * option (list string) * option (list string).

Lemma index_error_only_bind {A B} (c : M Task2.world A) (f : A → M Task2.world B) :
  index_error_only c → (∀ a, index_error_only (f a)) → index_error_only (c ≫= f).
Proof.
  intros Hc Hf w e w'. unfold mbind, M_bind, bind.
  destruct (c w) as [[a|e1] w1] eqn:Hcw.
  - apply Hf.
  - intros [= <- <-]. by eapply Hc.
Qed.

Lemma index_error_only_modify (f : Task2.world → Task2.world) :
  index_error_only (modify f).
Proof. intros w e w'. done. Qed.

Lemma index_error_only_ret {A} (a : A) : index_error_only (mret a).
Proof. intros w e w'. done. Qed.

Lemma index_error_only_for_each {A} (l : list A) (body : A → M Task2.world unit) :
  Forall (λ x, index_error_only (body x)) l → index_error_only (for_each l body).
Proof.
  induction 1 as [|x l Hx _ IH]; simpl.
  - apply (index_error_only_ret tt).
  - apply (index_error_only_bind (body x)); [done|]. intros _. apply IH.
Qed.

Lemma first_word_raise s e : first_word s = Raise e → e = IndexError.
Proof. unfold first_word. destruct (lstrip s); congruence. Qed.

Lemma cpu_row_raise batch_name target input_rel metrics e :
  cpu_row batch_name target input_rel metrics = Raise e → e = IndexError.
Proof.
  unfold cpu_row.
  destruct (first_word (get_or metrics "Total compute time (sum of per-step)" _))
    as [a|e1] eqn:H1; [|apply first_word_raise in H1; simpl; congruence].
  destruct (first_word (get_or metrics "Min step time" _))
    as [b|e2] eqn:H2; [|apply first_word_raise in H2; simpl; congruence].
  destruct (first_word (get_or metrics "Avg step time" _))
    as [c|e3] eqn:H3; [|apply first_word_raise in H3; simpl; congruence].
  destruct (first_word (get_or metrics "Steps per second (avg)" _))
    as [d|e4] eqn:H4; [|apply first_word_raise in H4; simpl; congruence].
  done.
Qed.

Lemma cuda_row_raise batch_name target input_rel metrics e :
  cuda_row batch_name target input_rel metrics = Raise e → e = IndexError.
Proof.
  unfold cuda_row.
  destruct (first_word (get_or metrics "Total kernel time (reset+forces+step)" _))
    as [a|e1] eqn:H1; [|apply first_word_raise in H1; simpl; congruence].
  destruct (first_word (get_or metrics "Min step time" _))
    as [b|e2] eqn:H2; [|apply first_word_raise in H2; simpl; congruence].
  destruct (first_word (get_or metrics "Avg step time" _))
    as [c|e3] eqn:H3; [|apply first_word_raise in H3; simpl; congruence].
  destruct (first_word (get_or metrics "Steps per second (avg)" _))
    as [d|e4] eqn:H4; [|apply first_word_raise in H4; simpl; congruence].
  done.
Qed.

Lemma index_error_only_launch args env :
  index_error_only (run_powershell_script run_once args env).
Proof.
  intros w e w'. unfold run_powershell_script, Task2.print. monad_unfold.
  by destruct (run_once _ args env) as [[rc cpu] cuda].
Qed.

Lemma index_error_only_collect target : index_error_only (collect_metrics target).
Proof.
  intros w e w'. unfold collect_metrics, Task2.print. monad_unfold.
  by destruct (metrics_file target w).
Qed.

Lemma index_error_only_run_target cfg target :
  index_error_only (run_target run_once cfg target).
Proof.
  unfold run_target.
  apply index_error_only_bind; [apply index_error_only_modify|]. intros _.
  apply index_error_only_bind; [apply index_error_only_launch|]. intros rc.
  case_decide; [apply index_error_only_modify|].
  apply index_error_only_bind; [apply index_error_only_collect|].
  intros [metrics|]; [|apply (index_error_only_ret tt)].
  apply index_error_only_bind.
  - intros w e w'. unfold lift. intros [= Hrow _].
    case_decide; [by eapply cpu_row_raise|by eapply cuda_row_raise].
  - intros row.
    apply index_error_only_bind; [apply index_error_only_modify|]. intros _.
    apply index_error_only_modify.
Qed.

Lemma index_error_only_run_omp cfg threads_req :
  index_error_only (run_omp run_once cfg threads_req).
Proof.
  unfold run_omp.
  apply index_error_only_bind; [apply index_error_only_modify|]. intros _.
  apply index_error_only_bind; [apply index_error_only_launch|]. intros rc.
  case_decide; [apply index_error_only_modify|].
  apply index_error_only_bind; [apply index_error_only_collect|].
  intros [metrics|]; [|apply (index_error_only_ret tt)].
  apply index_error_only_bind.
  - intros w e w'. unfold lift. intros [= Hrow _]. by eapply cpu_row_raise.
  - intros row.
    apply index_error_only_bind; [apply index_error_only_modify|]. intros _.
    apply index_error_only_modify.
Qed.

Lemma index_error_only_run_batch original cfg :
  index_error_only (run_batch run_once original cfg).
Proof.
  unfold run_batch.
  do 5 (apply index_error_only_bind; [apply index_error_only_modify|]; intros _).
  apply index_error_only_for_each, Forall_forall. intros target _.
  apply index_error_only_run_target.
Qed.

Lemma index_error_only_run_batch_omp original cfg :
  is_Some (threads cfg) → index_error_only (run_batch_omp run_once original cfg).
Proof.
  intros [n Hn]. unfold run_batch_omp. rewrite Hn.
  apply index_error_only_bind; [by intros w e w'|]. intros threads_req.
  do 5 (apply index_error_only_bind; [apply index_error_only_modify|]; intros _).
  apply index_error_only_run_omp.
Qed.

Lemma main_around_outcomes loop1 loop2 w r w' :
  (∀ original, index_error_only (loop1 original)) →
  (∀ original, index_error_only (loop2 original)) →
  main_around loop1 loop2 w = (r, w') →
  r = Ok 0 ∨ r = Ok 1 ∨ r = Raise IndexError.
Proof.
  intros Hl1 Hl2. unfold main_around.
  unfold Task2.read_original_config, Task2.read_json_config, Task2.print,
    Task2.open_summary, Task2.outf_write, Task2.write_json_config.
  unfold mbind, M_bind, bind, mret, M_ret, ret, raise, lift, get, modify. simpl.
  destruct (Task2.run_script_exists w); [|intros [= <- <-]; auto].
  destruct (Task2.config_file w) as [c|]; simpl.
  - destruct (loop1 _ _) as [[[]|e1] w1] eqn:E1.
    + destruct (loop2 _ _) as [[[]|e2] w2] eqn:E2.
      * intros [= <- <-]; auto.
      * intros [= <- <-]. apply Hl2 in E2 as ->. auto.
    + intros [= <- <-]. apply Hl1 in E1 as ->. auto.
  - destruct (loop1 _ _) as [[[]|e1] w1] eqn:E1.
    + destruct (loop2 _ _) as [[[]|e2] w2] eqn:E2.
      * intros [= <- <-]; auto.
      * intros [= <- <-]. apply Hl2 in E2 as ->. auto.
    + intros [= <- <-]. apply Hl1 in E1 as ->. auto.
Qed.

(** The batch ends with code 1 (no launcher), with code 0, or with the
    [IndexError] of a row that cannot be built. *)
Lemma main_outcomes w r w' :
  Task2.main run_once w = (r, w') →
  r = Ok 0 ∨ r = Ok 1 ∨ r = Raise IndexError.
Proof.
  rewrite main_eq. apply main_around_outcomes.
  - intros original. apply index_error_only_for_each, Forall_forall.
    intros cfg _. apply index_error_only_run_batch.
  - intros original. apply index_error_only_for_each.
    repeat (constructor; [by apply index_error_only_run_batch_omp|]).
    constructor.
Qed.

End Outcomes.

(** A metrics file without the timings: the row cannot be built, [main]
    ends with [IndexError] and the configuration of the first batch stays
    in the file. *)
Example main_index_error :
  (Task2.main (λ _ _ _, (0, Some ["Particles: 100"], None)) demo_world).1
  = Raise IndexError
  ∧ Task2.config_file
      (Task2.main (λ _ _ _, (0, Some ["Particles: 100"], None)) demo_world).2
    = Some (Task2.new_config_for (Some demo_config)
              (Task2.Batch "N100_dt10" (q 10000 1) (q 10 1)
                 "random_N100.txt" None)).
Proof. split; vm_compute; reflexivity. Qed.

(** * Further properties of the scripts *)

(** ** [compute_metrics]: when it succeeds and what it returns *)

Lemma rmap_Ok_Forall2 {A B} (f : A → result B) (l : list A) (ys : list B) :
  rmap f l = Ok ys ↔ Forall2 (λ x y, f x = Ok y) l ys.
Proof.
  revert ys. induction l as [|x l IH]; intros ys; simpl.
  - split.
    + intros [= <-]. constructor.
    + intros Hf. by inversion Hf.
  - destruct (f x) as [y|e] eqn:Hx; simpl.
    + destruct (rmap f l) as [ys'|e] eqn:Hl; simpl.
      * split.
        -- intros [= <-]. constructor; [done|]. by apply IH.
        -- intros Hf. inversion Hf as [|? y' ? ys'' Hy Hrest]; subst.
           rewrite Hx in Hy. injection Hy as <-.
           apply IH in Hrest. by injection Hrest as <-.
      * split; [done|].
        intros Hf. inversion Hf as [|? y' ? ys'' Hy Hrest]; subst.
        apply IH in Hrest. done.
    + split; [done|].
      intros Hf. inversion Hf as [|? y' ? ys'' Hy Hrest]; subst. congruence.
Qed.

Lemma rmap_Raise {A B} (f : A → result B) (l : list A) (e : exn) :
  rmap f l = Raise e → ∃ x, x ∈ l ∧ f x = Raise e.
Proof.
  induction l as [|x l IH]; simpl; [done|].
  destruct (f x) as [y|e'] eqn:Hx; simpl.
  - destruct (rmap f l) as [ys'|e''] eqn:Hl; simpl; [done|].
    intros [= ->]. destruct IH as (x' & ? & ?); [done|].
    exists x'. split; [by apply list_elem_of_further|done].
  - intros [= ->]. exists x. split; [apply list_elem_of_here|done].
Qed.




(** *** [compute_metrics] on binary64 floats *)

(** The largest [int] that becomes a float becomes the largest double;
    the next one would round to 2^1024. *)
Example float_of_int_largest :
  Binary64.float_of_int (2 ^ 1024 - 2 ^ 970 - 1)
  = Ok (S754_finite false (2 ^ 53 - 1) 971)
  ∧ Binary64.float_of_int (2 ^ 1024 - 2 ^ 970) = Raise OverflowError
  ∧ Binary64.of_ratio (2 ^ 1024 - 2 ^ 970) 1 = S754_infinity false
  ∧ Binary64.float_of_int (- (2 ^ 1024 - 2 ^ 970 - 1))
    = Ok (S754_finite true (2 ^ 53 - 1) 971).
Proof. split_and!; vm_compute; reflexivity. Qed.

Lemma compute_metrics64_shape rows out :
  rows ≠ [] →
  ∃ t_base out',
    Task1_64.compute_metrics rows out
    = (rmap (Task1_64.metric_of t_base) rows, out').
Proof.
  destruct rows as [|first rest]; [done|]. intros _.
  unfold Task1_64.compute_metrics.
  destruct (Task1_64.find_base (first :: rest)) as [[[nt np] t]|].
  - by exists t, out.
  - destruct (min_by Task1_64.by_nthreads first rest) as [[k np] t].
    by eexists _, _.
Qed.

Lemma metric_of64_Ok t_base nt np t m :
  Task1_64.metric_of t_base (nt, np, t) = Ok m
  ↔ Binary64.is_zero t = false ∧ nt ≠ 0 ∧ Z.abs nt < 2 ^ 1024 - 2 ^ 970
    ∧ m = (nt, np, t, SFdiv Binary64.prec Binary64.emax t_base t,
           SFdiv Binary64.prec Binary64.emax
             (SFdiv Binary64.prec Binary64.emax t_base t)
             (Binary64.of_ratio nt 1)).
Proof.
  unfold Task1_64.metric_of, Binary64.truediv, Binary64.truediv_int,
    Binary64.float_of_int.
  destruct (Binary64.is_zero t); simpl.
  { split; [done|]. by intros [? _]. }
  destruct (decide (Z.abs nt < 2 ^ 1024 - 2 ^ 970)) as [Hn|Hn]; simpl.
  - destruct (decide (nt = 0)) as [H0|H0]; simpl.
    + split; [done|]. by intros (_ & ? & _).
    + split; [by intros [= <-]|by intros (_ & _ & _ & ->)].
  - split; [done|]. by intros (_ & _ & ? & _).
Qed.

Lemma metric_of64_raise t_base row e :
  Task1_64.metric_of t_base row = Raise e →
  e = ZeroDivisionError ∨ e = OverflowError.
Proof.
  destruct row as [[nt np] t].
  unfold Task1_64.metric_of, Binary64.truediv, Binary64.truediv_int,
    Binary64.float_of_int.
  destruct (Binary64.is_zero t); simpl; [intros [= <-]; by left|].
  destruct (decide (Z.abs nt < 2 ^ 1024 - 2 ^ 970)); simpl;
    [|intros [= <-]; by right].
  destruct (decide (nt = 0)); simpl; [intros [= <-]; by left|done].
Qed.

(** X1. On binary64 floats, [compute_metrics] returns metrics exactly when
    the sequence is not empty and every row has a mean duration other than
    zero and a thread count that is not zero and small enough to become a
    float. It raises [ValueError] on the empty sequence, and otherwise
    [ZeroDivisionError] or, for a thread count too large for a float,
    [OverflowError], and nothing else. *)
Theorem compute_metrics_succeeds_iff (rows : list Task1_64.aggregated)
    (out : list event) :
  ((∃ metrics, (Task1_64.compute_metrics rows out).1 = Ok metrics)
   ↔ rows ≠ []
     ∧ Forall (λ row : Task1_64.aggregated,
                 Binary64.is_zero row.2 = false ∧ row.1.1 ≠ 0
                 ∧ Z.abs row.1.1 < 2 ^ 1024 - 2 ^ 970) rows)
  ∧ (∀ e, (Task1_64.compute_metrics rows out).1 = Raise e →
       (rows = [] ∧ e = ValueError NoAggregatedTimings)
       ∨ (rows ≠ [] ∧ (e = ZeroDivisionError ∨ e = OverflowError))).
Proof.
  destruct (decide (rows = [])) as [->|Hne].
  { split.
    - split; [by intros [? ?]|by intros [? _]].
    - intros e [= <-]. by left. }
  destruct (compute_metrics64_shape rows out Hne) as (t_base & out' & ->).
  cbn [fst]. split.
  - split.
    + intros [metrics Hok]. split; [done|].
      apply rmap_Ok_Forall2 in Hok.
      apply Forall_forall. intros [[nt np] t] Hin.
      apply list_elem_of_lookup in Hin as [j Hj].
      destruct (Forall2_lookup_l _ _ _ _ _ Hok Hj) as (m & _ & Hm).
      by apply metric_of64_Ok in Hm as (? & ? & ? & _).
    + intros [_ Hall].
      exists ((λ row : Task1_64.aggregated,
                 (row.1.1, row.1.2, row.2,
                  SFdiv Binary64.prec Binary64.emax t_base row.2,
                  SFdiv Binary64.prec Binary64.emax
                    (SFdiv Binary64.prec Binary64.emax t_base row.2)
                    (Binary64.of_ratio row.1.1 1))) <$> rows).
      apply rmap_ok. eapply Forall_impl; [exact Hall|].
      intros [[nt np] t] (Ht & Hn & Hsmall). cbn [fst snd] in *.
      by apply metric_of64_Ok.
  - intros e He. right. split; [done|].
    apply rmap_Raise in He as (row & _ & He).
    by eapply metric_of64_raise.
Qed.



(** ** [aggregate_by_nthreads]: bounds on the means *)


Lemma times_of_elem {F} nt (timings : list (Z * Z * Z * F)) :
  times_of nt timings ≠ [] → ∃ np r t, (nt, np, r, t) ∈ timings.
Proof.
  intros Hne. destruct (times_of nt timings) as [|t l] eqn:Hl; [done|].
  assert (t ∈ times_of nt timings) as Ht by (rewrite Hl; apply list_elem_of_here).
  unfold times_of in Ht. apply list_elem_of_omap in Ht as ([[[nt' np] r] t'] & Hin & Heq).
  case_decide as Hk; [|done]. subst nt'. by exists np, r, t'.
Qed.








(** ** [collect_timings] and [main] of the Mandelbrot batch *)

Section Collect.

Variable py_float : string → option float.
Variable mandelbrot : nat → Z → Z → Z * list string.

Lemma run_mandelbrot_Ok nt np w t w' :
  run_mandelbrot py_float mandelbrot nt np w = (Ok t, w') →
  exe_exists w = true
  ∧ w' = World (exe_exists w) (S (runs w)) (files w) (stdout w)
  ∧ trial_ok py_float mandelbrot (runs w) (nt, np, 0, t).
Proof.
  unfold run_mandelbrot, count_run, trial_ok. monad_unfold.
  destruct (exe_exists w) eqn:Hexe; [|done].
  destruct (mandelbrot (runs w) nt np) as [returncode stderr]. simpl.
  case_decide as Hrc; [done|].
  destruct (parse_metric py_float "TIME_SECONDS" stderr) as [t'|e] eqn:Hp; [|done].
  intros [= <- <-]. rewrite Hexe. by split_and!.
Qed.

(** The inner loop, from any list of results. *)
Lemma collect_inner nt npoints runs_per_config rs results w results' w' :
  for_fold rs results (λ results r,
    print (InfoRunning nt npoints r runs_per_config);;
    t ← run_mandelbrot py_float mandelbrot nt npoints;
    print (InfoTime t);;
    mret (results ++ [(nt, npoints, r, t)])) w = (Ok results', w') →
  ∃ new,
    results' = results ++ new
    ∧ (λ row : timing, row.1) <$> new = (λ r, (nt, npoints, r)) <$> rs
    ∧ runs w' = (runs w + length new)%nat
    ∧ files w' = files w
    ∧ ∀ i row, new !! i = Some row →
        trial_ok py_float mandelbrot (runs w + i) row.
Proof.
  revert results w. induction rs as [|r rs IH]; intros results w.
  - intros [= <- <-]. exists []. rewrite app_nil_r.
    split_and!; [done|done|simpl; lia|done|done].
  - simpl. unfold print. monad_unfold.
    destruct (run_mandelbrot _ _ _ _ _) as [[t|e] w1] eqn:Hrun; [|done].
    apply run_mandelbrot_Ok in Hrun as (_ & -> & Hok). simpl.
    intros Hrest. apply IH in Hrest as (new & -> & Hkeys & Hruns & Hfiles & Hnew).
    simpl in *. exists ((nt, npoints, r, t) :: new). split_and!.
    + by rewrite <-app_assoc.
    + rewrite !fmap_cons. by f_equal.
    + simpl. lia.
    + done.
    + intros [|i] row Hi; simpl in Hi.
      * injection Hi as <-. rewrite Nat.add_0_r. exact Hok.
      * apply Hnew in Hi. by replace (runs w + S i)%nat with (S (runs w + i)) by lia.
Qed.

Lemma collect_outer npoints runs_per_config nts results w results' w' :
  for_fold nts results (λ results nt,
    for_fold (seqZ 1 runs_per_config) results (λ results r,
      print (InfoRunning nt npoints r runs_per_config);;
      t ← run_mandelbrot py_float mandelbrot nt npoints;
      print (InfoTime t);;
      mret (results ++ [(nt, npoints, r, t)]))) w = (Ok results', w') →
  ∃ new,
    results' = results ++ new
    ∧ (λ row : timing, row.1) <$> new = trial_keys nts npoints runs_per_config
    ∧ runs w' = (runs w + length new)%nat
    ∧ files w' = files w
    ∧ ∀ i row, new !! i = Some row →
        trial_ok py_float mandelbrot (runs w + i) row.
Proof.
  revert results w. induction nts as [|nt nts IH]; intros results w.
  - intros [= <- <-]. exists []. rewrite app_nil_r.
    split_and!; [done|done|simpl; lia|done|done].
  - simpl. unfold bind at 1.
    destruct (for_fold (seqZ 1 runs_per_config) _ _ _) as [[results1|e] w1] eqn:Hin;
      [|done].
    apply collect_inner in Hin as (new1 & -> & Hkeys1 & Hruns1 & Hfiles1 & Hnew1).
    intros Hrest. apply IH in Hrest as (new2 & -> & Hkeys2 & Hruns2 & Hfiles2 & Hnew2).
    exists (new1 ++ new2). split_and!.
    + by rewrite <-app_assoc.
    + unfold trial_keys in *. rewrite fmap_app, fmap_cons, Hkeys1, Hkeys2. done.
    + rewrite length_app. lia.
    + congruence.
    + intros i row Hi. apply lookup_app_Some in Hi as [Hi|[Hge Hi]].
      * by apply Hnew1.
      * apply Hnew2 in Hi. rewrite Hruns1 in Hi.
        unfold timing in *.
        by replace (runs w + i)%nat
          with (runs w + length new1 + (i - length new1))%nat by lia.
Qed.

(** X5. When [collect_timings] returns, its trials are those of the two
    nested loops, thread counts outside and run indices 1 to the number of
    runs inside, all with the given size; it has run the executable once
    for each, in that order, every run ending with code 0 and giving the
    duration of its trial; and it has written no file. *)
Theorem collect_timings_trials (nthreads_list : list Z) (npoints runs_per_config : Z)
    (w : world) (results : list timing) (w' : world) :
  collect_timings py_float mandelbrot nthreads_list npoints runs_per_config w
    = (Ok results, w') →
  (λ row : timing, row.1) <$> results
    = trial_keys nthreads_list npoints runs_per_config
  ∧ runs w' = (runs w + length results)%nat
  ∧ files w' = files w
  ∧ ∀ i row, results !! i = Some row →
      trial_ok py_float mandelbrot (runs w + i) row.
Proof.
  unfold collect_timings. intros Hc.
  apply collect_outer in Hc as (new & -> & ? & ? & ? & ?). done.
Qed.

End Collect.

Lemma pair_fst_eq {A B} (p : A * B) (a : A) : p.1 = a → p = (a, p.2).
Proof. destruct p. simpl. by intros ->. Qed.

Lemma collect_timings_trials_witness :
  (λ row : timing, row.1) <$> scenario = trial_keys [1; 2; 4] 100 2
  ∧ runs (collect_timings float_of_decimal scenario_stub [1; 2; 4] 100 2
            (World true 0 ∅ [])).2 = (0 + length scenario)%nat
  ∧ files (collect_timings float_of_decimal scenario_stub [1; 2; 4] 100 2
             (World true 0 ∅ [])).2 = ∅
  ∧ ∀ i row, scenario !! i = Some row →
      trial_ok float_of_decimal scenario_stub (0 + i) row.
Proof.
  apply (collect_timings_trials float_of_decimal scenario_stub [1; 2; 4] 100 2
           (World true 0 ∅ []) scenario).
  apply pair_fst_eq. by_decide.
Defined.

Section Frame.

Variable py_float : string → option float.
Variable mandelbrot : nat → Z → Z → Z * list string.

Lemma frame_bind {A B} (c : M world A) (f : A → M world B) :
  frame c → (∀ a, frame (f a)) → frame (c ≫= f).
Proof.
  intros Hc Hf w r w'. unfold mbind, M_bind, bind.
  destruct (c w) as [[a|e] w1] eqn:Hcw.
  - intros Hfw. destruct (Hc _ _ _ Hcw) as (? & ? & ?).
    destruct (Hf a _ _ _ Hfw) as (? & ? & ?).
    split_and!; [congruence..|lia].
  - intros [= <- <-]. by apply (Hc _ _ _ Hcw).
Qed.

Lemma frame_ret {A} (a : A) : frame (mret a).
Proof. by intros w r w' [= <- <-]. Qed.

Lemma frame_print e : frame (print e).
Proof. by intros w r w' [= <- <-]. Qed.

Lemma frame_run_mandelbrot nt np : frame (run_mandelbrot py_float mandelbrot nt np).
Proof.
  intros w r w'. unfold run_mandelbrot, count_run. monad_unfold.
  destruct (exe_exists w) eqn:Hexe; [|by intros [= <- <-]].
  destruct (mandelbrot (runs w) nt np) as [returncode stderr]. simpl.
  case_decide; intros [= <- <-]; simpl; split_and!; (done || lia).
Qed.

Lemma frame_for_fold {A B} (l : list A) (acc : B) (body : B → A → M world B) :
  (∀ acc x, frame (body acc x)) → frame (for_fold l acc body).
Proof.
  intros Hbody. revert acc.
  induction l as [|x l IH]; intros acc; simpl.
  - apply (frame_ret acc).
  - apply (frame_bind (body acc x)); [apply Hbody|apply IH].
Qed.

Lemma frame_collect_timings nthreads_list npoints runs_per_config :
  frame (collect_timings py_float mandelbrot nthreads_list npoints runs_per_config).
Proof.
  unfold collect_timings.
  apply frame_for_fold. intros results nt.
  apply frame_for_fold. intros results' r.
  apply frame_bind; [apply frame_print|]. intros _.
  apply frame_bind; [apply frame_run_mandelbrot|]. intros t.
  apply frame_bind; [apply frame_print|]. intros _.
  apply frame_ret.
Qed.

Lemma collect_timings_no_trials nthreads_list npoints runs_per_config w :
  nthreads_list = [] ∨ runs_per_config ≤ 0 →
  collect_timings py_float mandelbrot nthreads_list npoints runs_per_config w
  = (Ok [], w).
Proof.
  unfold collect_timings. intros [->|Hruns]; [done|].
  rewrite seqZ_nil by done.
  assert (∀ results : list timing,
            for_fold nthreads_list results (λ results nt,
              for_fold [] results (λ results r,
                print (InfoRunning nt npoints r runs_per_config);;
                t ← run_mandelbrot py_float mandelbrot nt npoints;
                print (InfoTime t);;
                mret (results ++ [(nt, npoints, r, t)]))) w
            = (Ok results, w)) as Hall; [|apply Hall].
  induction nthreads_list as [|nt nts IH]; intros results; [done|].
  simpl. unfold bind, ret. simpl. apply IH.
Qed.

(** X6. With no thread count or a number of runs that is not positive,
    [collect_timings] returns no trial, prints nothing and does not look for
    the executable; the batch then writes the timings file with its header
    alone and stops on the [ValueError] of the empty aggregate, the metrics
    file not being written. *)
Theorem main_on_no_trials (nthreads_list : list Z) (npoints runs_per_config : Z)
    (w : world) :
  nthreads_list = [] ∨ runs_per_config ≤ 0 →
  collect_timings py_float mandelbrot nthreads_list npoints runs_per_config w
    = (Ok [], w)
  ∧ ∃ w',
      main_on py_float mandelbrot nthreads_list npoints runs_per_config w
        = (Raise (ValueError NoAggregatedTimings), w')
      ∧ files w'
        = <[TIMINGS_CSV := "nthreads,npoints,run_index,time" +:+ crlf]> (files w)
      ∧ runs w' = runs w.
Proof.
  intros Hno. split; [by apply collect_timings_no_trials|].
  unfold main_on. unfold print at 1 2 3 4 5. monad_unfold.
  rewrite collect_timings_no_trials by done.
  eexists. split; [reflexivity|]. done.
Qed.

(** X7. When the executable is missing and there is a trial to run, the
    batch stops on [FileNotFoundError] before any process is run and any
    file written. *)
Theorem main_on_missing_executable (nt : Z) (nts : list Z)
    (npoints runs_per_config : Z) (w : world) :
  exe_exists w = false →
  0 < runs_per_config →
  ∃ w',
    main_on py_float mandelbrot (nt :: nts) npoints runs_per_config w
      = (Raise FileNotFoundError, w')
    ∧ runs w' = runs w ∧ files w' = files w.
Proof.
  intros Hexe Hruns. unfold main_on, collect_timings.
  rewrite seqZ_cons by done.
  unfold print, run_mandelbrot. monad_unfold.
  rewrite Hexe. simpl. eexists. split; [reflexivity|]. done.
Qed.

End Frame.

Lemma main_on_no_trials_witness :
  collect_timings float_of_decimal scenario_stub [1; 2] 100 0 (World false 0 ∅ [])
    = (Ok [], World false 0 ∅ [])
  ∧ ∃ w',
      main_on float_of_decimal scenario_stub [1; 2] 100 0 (World false 0 ∅ [])
        = (Raise (ValueError NoAggregatedTimings), w')
      ∧ files w'
        = <[TIMINGS_CSV := "nthreads,npoints,run_index,time" +:+ crlf]> ∅
      ∧ runs w' = 0%nat.
Proof.
  apply (main_on_no_trials float_of_decimal scenario_stub [1; 2] 100 0
           (World false 0 ∅ [])).
  right. lia.
Defined.

Lemma main_on_missing_executable_witness :
  ∃ w',
    main float_of_decimal scenario_stub (World false 0 ∅ [])
      = (Raise FileNotFoundError, w')
    ∧ runs w' = 0%nat ∧ files w' = ∅.
Proof.
  apply (main_on_missing_executable float_of_decimal scenario_stub 1 [2; 4; 8; 16]
           5000 10 (World false 0 ∅ [])).
  - reflexivity.
  - lia.
Defined.

Section Stopping.

Variable py_float : string → option float.
Variable mandelbrot : nat → Z → Z → Z * list string.

(** The run number [k] raises [e], whatever its arguments. *)
Variable e : exn.
Variable k : nat.
Hypothesis run_k : ∀ nt np w,
  exe_exists w = true → runs w = k →
  (run_mandelbrot py_float mandelbrot nt np w).1 = Raise e.

Lemma stopping_bind {A B} (c : M world A) (f : A → M world B) :
  frame c → stopping e k c → (∀ a, stopping e k (f a)) → stopping e k (c ≫= f).
Proof.
  intros Hfr Hc Hf w r w' Hexe. unfold mbind, M_bind, bind.
  destruct (c w) as [[a|e1] w1] eqn:Hcw.
  - intros Hfw Hk.
    destruct (Hfr _ _ _ Hcw) as (Hexe1 & _ & Hle1).
    destruct (decide (k < runs w1)%nat) as [Hlt|Hge].
    + by destruct (Hc _ _ _ Hexe Hcw) as [? _]; [lia|].
    + apply (Hf a w1); [congruence|done|lia].
  - intros [= <- <-] Hk.
    by destruct (Hc _ _ _ Hexe Hcw Hk) as [[= ->] ?].
Qed.

Lemma stopping_frame {A} (c : M world A) :
  (∀ w r w', c w = (r, w') → runs w' = runs w) → stopping e k c.
Proof. intros Hc w r w' _ Hcw Hk. apply Hc in Hcw. lia. Qed.

Lemma stopping_run_mandelbrot nt np :
  stopping e k (run_mandelbrot py_float mandelbrot nt np).
Proof.
  intros w r w' Hexe Hrun Hk.
  pose proof (run_k nt np w Hexe) as Hr. rewrite Hrun in Hr. simpl in Hr.
  revert Hrun Hk. unfold run_mandelbrot, count_run. monad_unfold. rewrite Hexe.
  destruct (mandelbrot (runs w) nt np) as [returncode stderr]. simpl.
  case_decide; intros [= <- <-]; simpl; intros Hk;
    (split; [apply Hr|]; lia).
Qed.

Lemma stopping_for_fold {A B} (l : list A) (acc : B) (body : B → A → M world B) :
  (∀ acc x, frame (body acc x)) →
  (∀ acc x, stopping e k (body acc x)) →
  stopping e k (for_fold l acc body).
Proof.
  intros Hfr Hbody. revert acc.
  induction l as [|x l IH]; intros acc; simpl.
  - apply stopping_frame. by intros w r w' [= _ <-].
  - apply (stopping_bind (body acc x)); [apply Hfr|apply Hbody|apply IH].
Qed.

Lemma frame_trial nt npoints runs_per_config (results : list timing) r :
  frame (print (InfoRunning nt npoints r runs_per_config);;
         t ← run_mandelbrot py_float mandelbrot nt npoints;
         print (InfoTime t);;
         mret (results ++ [(nt, npoints, r, t)])).
Proof.
  apply frame_bind; [apply frame_print|]. intros _.
  apply frame_bind; [apply frame_run_mandelbrot|]. intros t.
  apply frame_bind; [apply frame_print|]. intros _.
  apply frame_ret.
Qed.

Lemma stopping_collect_timings nthreads_list npoints runs_per_config :
  stopping e k
    (collect_timings py_float mandelbrot nthreads_list npoints runs_per_config).
Proof.
  unfold collect_timings.
  apply stopping_for_fold.
  { intros results nt. apply frame_for_fold. intros results' r. apply frame_trial. }
  intros results nt. apply stopping_for_fold.
  { intros results' r. apply frame_trial. }
  intros results' r.
  apply stopping_bind; [apply frame_print| |].
  { apply stopping_frame. by intros w r0 w' [= _ <-]. }
  intros _. apply stopping_bind; [apply frame_run_mandelbrot| |].
  { apply stopping_run_mandelbrot. }
  intros t. apply stopping_frame. by intros w r0 w' [= _ <-].
Qed.

End Stopping.

Section MainOn.

Variable py_float : string → option float.
Variable mandelbrot : nat → Z → Z → Z * list string.

Lemma compute_metrics_result rows out :
  (compute_metrics rows out).1 = (compute_metrics rows []).1.
Proof.
  destruct rows as [|first rest]; [done|].
  unfold compute_metrics.
  destruct (find_base (first :: rest)) as [[[nt np] t]|]; [done|].
  by destruct (min_by by_nthreads first rest) as [[k np] t].
Qed.

Lemma main_prelude_frame nthreads_list npoints runs_per_config w :
  exe_exists (main_prelude nthreads_list npoints runs_per_config w).2 = exe_exists w
  ∧ runs (main_prelude nthreads_list npoints runs_per_config w).2 = runs w
  ∧ files (main_prelude nthreads_list npoints runs_per_config w).2 = files w.
Proof. done. Qed.

(** What [main] does after the trials are collected. *)
Lemma main_on_cases nthreads_list npoints runs_per_config w r w' :
  main_on py_float mandelbrot nthreads_list npoints runs_per_config w = (r, w') →
  match collect_timings py_float mandelbrot nthreads_list npoints runs_per_config
          (main_prelude nthreads_list npoints runs_per_config w).2 with
  | (Raise e, w1) => r = Raise e ∧ w' = w1
  | (Ok timings, w1) =>
      runs w' = runs w1
      ∧ match (rows ← aggregate_by_nthreads timings;
               (compute_metrics rows []).1) with
        | Raise e =>
            r = Raise e
            ∧ files w' = <[TIMINGS_CSV := timings_text timings]> (files w1)
        | Ok metrics =>
            r = Ok tt
            ∧ files w'
              = <[METRICS_CSV := metrics_text metrics]>
                  (<[TIMINGS_CSV := timings_text timings]> (files w1))
        end
  end.
Proof.
  unfold main_on, main_prelude. unfold print at 1 2 3 4 5 6 7 8 9 10.
  monad_unfold.
  destruct (collect_timings _ _ _ _ _ _) as [[timings|e] w1]; simpl;
    [|by intros [= <- <-]].
  unfold save_timings_csv, save_metrics_csv, write_file, on_stdout, print.
  monad_unfold.
  destruct (aggregate_by_nthreads timings) as [rows|e]; simpl;
    [|by intros [= <- <-]].
  rewrite <-(compute_metrics_result rows (stdout w1 ++ [InfoSavingTimings])).
  destruct (compute_metrics rows _) as [[metrics|e] out]; simpl;
    by intros [= <- <-].
Qed.

(** X8. The Mandelbrot batch neither retries nor skips: when it makes a run
    that raises, for instance one that ends with a non-zero code, [main]
    ends with that exception, no later run is made and no file is
    written. *)
Theorem main_on_stops_at_failure (e : exn) (k : nat) (nthreads_list : list Z)
    (npoints runs_per_config : Z) (w : world) (r : result unit) (w' : world) :
  (∀ nt np w0, exe_exists w0 = true → runs w0 = k →
     (run_mandelbrot py_float mandelbrot nt np w0).1 = Raise e) →
  exe_exists w = true →
  (runs w ≤ k < runs w')%nat →
  main_on py_float mandelbrot nthreads_list npoints runs_per_config w = (r, w') →
  r = Raise e ∧ files w' = files w ∧ runs w' = S k.
Proof.
  intros Hk Hexe Hrange Hmain. apply main_on_cases in Hmain.
  pose proof (stopping_collect_timings py_float mandelbrot e k Hk
                nthreads_list npoints runs_per_config) as Hstop.
  pose proof (frame_collect_timings py_float mandelbrot
                nthreads_list npoints runs_per_config) as Hframe.
  destruct (main_prelude_frame nthreads_list npoints runs_per_config w)
    as (Hexe0 & Hruns0 & Hfiles0).
  rewrite <-Hexe0 in Hexe. rewrite <-Hruns0 in Hrange. rewrite <-Hfiles0.
  destruct (collect_timings _ _ _ _ _ _) as [[timings|e1] w1] eqn:Hc.
  - destruct Hmain as [Hruns _]. rewrite Hruns in Hrange.
    by destruct (Hstop _ _ _ Hexe Hc Hrange).
  - destruct Hmain as [-> ->].
    destruct (Hframe _ _ _ Hc) as (_ & Hfiles & _).
    destruct (Hstop _ _ _ Hexe Hc Hrange) as [[= ->] Hruns].
    by split_and!.
Qed.




End MainOn.

Lemma main_on_stops_at_failure_witness :
  (main_on float_of_decimal crashing_stub [1; 2; 4] 100 2 (World true 0 ∅ [])).1
    = Raise RuntimeError
  ∧ files (main_on float_of_decimal crashing_stub [1; 2; 4] 100 2
             (World true 0 ∅ [])).2 = files (World true 0 ∅ [])
  ∧ runs (main_on float_of_decimal crashing_stub [1; 2; 4] 100 2
            (World true 0 ∅ [])).2 = 3%nat.
Proof.
  apply (main_on_stops_at_failure float_of_decimal crashing_stub RuntimeError 2
           [1; 2; 4] 100 2 (World true 0 ∅ [])).
  - intros nt np w0 Hexe Hruns. unfold run_mandelbrot. monad_unfold.
    by rewrite Hexe, Hruns.
  - reflexivity.
  - by_decide.
  - apply surjective_pairing.
Defined.



(** ** The metrics file and the rows of the N-body batch *)

Section Metrics.

Import Task2.

Lemma contains_app sep (a b : string) : contains sep (a +:+ String sep b) = true.
Proof.
  induction a as [|c a IH].
  - rewrite append_nil. simpl. by rewrite bool_decide_eq_true_2.
  - rewrite append_cons. simpl. rewrite IH. apply orb_true_r.
Qed.

Lemma metrics_line_lookup result line k :
  metrics_line result line !! k
  = match metrics_line ∅ line !! k with
    | Some v => Some v
    | None => result !! k
    end.
Proof.
  unfold metrics_line.
  destruct (bool_decide _ || negb _); [by rewrite lookup_empty|].
  destruct (split1 _ _) as [key value].
  destruct (decide (strip key = k)) as [->|Hk].
  - by rewrite !lookup_insert_eq.
  - by rewrite !lookup_insert_ne, lookup_empty.
Qed.

Lemma foldl_metrics_line_skip lines result k :
  Forall (λ l, metrics_line ∅ l !! k = None) lines →
  foldl metrics_line result lines !! k = result !! k.
Proof.
  intros Hlines. revert result.
  induction Hlines as [|l lines Hl _ IH]; intros result; [done|].
  simpl. rewrite IH, metrics_line_lookup. by rewrite Hl.
Qed.

Lemma metrics_line_sets line key value :
  strip line = key +:+ ":" +:+ value →
  contains ":" key = false →
  metrics_line ∅ line !! strip key = Some (strip value).
Proof.
  intros Hline Hkey. unfold metrics_line. rewrite Hline.
  change (":" +:+ value) with (String ":" value).
  rewrite contains_app, (split1_app ":" key value) by done.
  rewrite bool_decide_eq_false_2.
  - simpl. by rewrite lookup_insert_eq.
  - destruct key; [done|]. by rewrite append_cons.
Qed.

(** X11. [collect_metrics] reads a metrics file line by line: a line whose
    stripped form is [key:value], with no colon in [key], gives the stripped
    key the stripped value, colons of the value included, unless a later
    line gives that key again; a key that no line gives is absent. The
    files and the output are left as they were. *)
Theorem collect_metrics_lookup (target : string) (w : Task2.world)
    (pre : list string) (line : string) (post : list string)
    (key value : string) :
  metrics_file target w = Some (pre ++ line :: post) →
  strip line = key +:+ ":" +:+ value →
  contains ":" key = false →
  Forall (λ l, Task2.metrics_line ∅ l !! strip key = None) post →
  ∃ metrics,
    collect_metrics target w = (Ok (Some metrics), w)
    ∧ metrics !! strip key = Some (strip value)
    ∧ ∀ k, Forall (λ l, Task2.metrics_line ∅ l !! k = None) (pre ++ line :: post) →
        metrics !! k = None.
Proof.
  intros Hfile Hline Hkey Hpost.
  exists (foldl metrics_line ∅ (pre ++ line :: post)). split_and!.
  - unfold collect_metrics. monad_unfold. by rewrite Hfile.
  - rewrite foldl_app. simpl. rewrite foldl_metrics_line_skip by done.
    rewrite metrics_line_lookup. by rewrite (metrics_line_sets line key value).
  - intros k Hk. by rewrite foldl_metrics_line_skip.
Qed.

Lemma carry_lookup (o m : gmap string json) (key k : string) :
  match o !! key, m !! key with
  | Some v, None => <[key := v]> m
  | _, _ => m
  end !! k
  = if decide (k = key)
    then match m !! key with Some x => Some x | None => o !! key end
    else m !! k.
Proof.
  destruct (o !! key) eqn:Ho, (m !! key) eqn:Hm; case_decide; subst;
    rewrite ?lookup_insert_eq, ?lookup_insert_ne by done; done.
Qed.

(** X12. The configuration written before a launch has the end time, the
    step and the input of the batch entry, whatever the original
    configuration had for them; it has the body count [n] and the [seed] of
    the original configuration when that has them; and it has no other
    key. *)
Theorem new_config_for_keys (original : option (gmap string json)) (cfg : batch)
    (k : string) :
  new_config_for original cfg !! k
  = if decide (k = "tend") then Some (JNum (tend cfg))
    else if decide (k = "dt") then Some (JNum (dt cfg))
    else if decide (k = "input") then Some (JStr (input cfg))
    else if decide (k = "n" ∨ k = "seed") then original ≫= (.!! k)
    else None.
Proof.
  unfold new_config_for. cbv zeta.
  set (base := <["input" := JStr (input cfg)]>
                 (<["dt" := JNum (dt cfg)]> (<["tend" := JNum (tend cfg)]> ∅))
               : gmap string json).
  assert (base !! k
          = if decide (k = "tend") then Some (JNum (tend cfg))
            else if decide (k = "dt") then Some (JNum (dt cfg))
            else if decide (k = "input") then Some (JStr (input cfg))
            else None) as Hbase.
  { unfold base. repeat case_decide; subst;
      by rewrite ?lookup_insert_eq, ?lookup_insert_ne, ?lookup_empty by done. }
  assert (base !! "n" = None) as Hn by done.
  assert (base !! "seed" = None) as Hseed by done.
  destruct original as [o|]; cbn [mbind option_bind].
  - destruct (decide (size o = 0%nat)) as [Hsize|Hsize].
    + apply map_size_empty_iff in Hsize as ->. rewrite Hbase, lookup_empty.
      by repeat case_decide.
    + cbn [foldl]. rewrite !carry_lookup, Hn, Hseed, Hbase.
      repeat case_decide; simplify_eq; try done; destruct_or?; simplify_eq; tauto.
  - rewrite Hbase. by repeat case_decide.
Qed.

End Metrics.
Section Rows.

Import Task2.

Lemma lstrip_head s c r : lstrip s = String c r → isspace c = false.
Proof.
  induction s as [|a s IH]; [done|]. simpl.
  destruct (isspace a) eqn:Ha; [done|]. by intros [= <- _].
Qed.

Lemma take_word_no_space s : has_space (take_word s) = false.
Proof.
  induction s as [|c s IH]; [done|]. simpl.
  destruct (isspace c) eqn:Hc; [done|]. simpl. by rewrite Hc.
Qed.

Lemma take_word_prefix s : startswith s (take_word s) = true.
Proof.
  unfold startswith. induction s as [|c s IH]; [done|]. simpl.
  destruct (isspace c); [done|]. simpl. by destruct (ascii_dec c c).
Qed.

Lemma take_word_split s :
  ∃ rest,
    s = take_word s +:+ rest
    ∧ match rest with
      | EmptyString => True
      | String c _ => isspace c = true
      end.
Proof.
  induction s as [|c s (rest & IH & Hrest)]; [by exists EmptyString|].
  simpl. destruct (isspace c) eqn:Hc.
  - by exists (String c s).
  - exists rest. by rewrite append_cons, <-IH.
Qed.

(** [s.split()[0]] is the first word of [s]. *)
Lemma first_word_Ok s f : first_word s = Ok f → is_first_word f s.
Proof.
  unfold first_word. destruct (lstrip s) as [|c r] eqn:Hs; [done|].
  intros [= <-]. pose proof (lstrip_head _ _ _ Hs) as Hc.
  destruct (take_word_split (String c r)) as (rest & Hsplit & Hrest).
  exists rest. split_and!; [by rewrite Hs|..|done].
  - simpl. by rewrite Hc.
  - apply (take_word_no_space (String c r)).
Qed.

Lemma first_word_is_Ok s : (∃ f, first_word s = Ok f) ↔ lstrip s ≠ EmptyString.
Proof.
  unfold first_word. destruct (lstrip s) as [|c r]; split; try done.
  - by intros [f ?].
  - intros _. by eexists.
Qed.

Lemma cpu_row_Ok batch_name target input_rel metrics row :
  cpu_row batch_name target input_rel metrics = Ok row →
  ∃ a b c d,
    first_word (get_or metrics "Total compute time (sum of per-step)" EmptyString) = Ok a
    ∧ first_word (get_or metrics "Min step time" EmptyString) = Ok b
    ∧ first_word (get_or metrics "Avg step time" EmptyString) = Ok c
    ∧ first_word (get_or metrics "Steps per second (avg)" EmptyString) = Ok d
    ∧ row = [batch_name; target; get_or metrics "Input file" input_rel;
             get_or metrics "t_end" EmptyString; get_or metrics "dt" EmptyString;
             get_or metrics "eps" EmptyString;
             get_or metrics "Particles" EmptyString;
             get_or metrics "OpenMP threads" EmptyString;
             get_or metrics "Total steps" EmptyString; a; b; c; d;
             get_or metrics "Output trajectories" EmptyString].
Proof.
  unfold cpu_row.
  destruct (first_word (get_or metrics "Total compute time (sum of per-step)" _))
    as [a|e1]; [|done].
  destruct (first_word (get_or metrics "Min step time" _)) as [b|e2]; [|done].
  destruct (first_word (get_or metrics "Avg step time" _)) as [c|e3]; [|done].
  destruct (first_word (get_or metrics "Steps per second (avg)" _)) as [d|e4];
    [|done].
  intros [= <-]. by exists a, b, c, d.
Qed.

Lemma cuda_row_Ok batch_name target input_rel metrics row :
  cuda_row batch_name target input_rel metrics = Ok row →
  ∃ a b c d,
    first_word (get_or metrics "Total kernel time (reset+forces+step)" EmptyString) = Ok a
    ∧ first_word (get_or metrics "Min step time" EmptyString) = Ok b
    ∧ first_word (get_or metrics "Avg step time" EmptyString) = Ok c
    ∧ first_word (get_or metrics "Steps per second (avg)" EmptyString) = Ok d
    ∧ row = [batch_name; target; get_or metrics "Input file" input_rel;
             get_or metrics "t_end" EmptyString; get_or metrics "dt" EmptyString;
             get_or metrics "eps" EmptyString;
             get_or metrics "Particles" EmptyString;
             get_or metrics "CUDA device" EmptyString;
             get_or metrics "Total steps" EmptyString; a; b; c; d;
             get_or metrics "Output trajectories" EmptyString].
Proof.
  unfold cuda_row.
  destruct (first_word (get_or metrics "Total kernel time (reset+forces+step)" _))
    as [a|e1]; [|done].
  destruct (first_word (get_or metrics "Min step time" _)) as [b|e2]; [|done].
  destruct (first_word (get_or metrics "Avg step time" _)) as [c|e3]; [|done].
  destruct (first_word (get_or metrics "Steps per second (avg)" _)) as [d|e4];
    [|done].
  intros [= <-]. by exists a, b, c, d.
Qed.

Lemma row_length batch_name target input_rel metrics row :
  cpu_row batch_name target input_rel metrics = Ok row
  ∨ cuda_row batch_name target input_rel metrics = Ok row →
  length row = length header_cols.
Proof.
  intros [Hrow|Hrow].
  - by apply cpu_row_Ok in Hrow as (a & b & c & d & _ & _ & _ & _ & ->).
  - by apply cuda_row_Ok in Hrow as (a & b & c & d & _ & _ & _ & _ & ->).
Qed.

Lemma cpu_row_is_Ok batch_name target input_rel metrics :
  (∃ row, cpu_row batch_name target input_rel metrics = Ok row)
  ↔ Forall (λ key, lstrip (get_or metrics key EmptyString) ≠ EmptyString)
      cpu_timing_keys.
Proof.
  split.
  - intros [row Hrow].
    apply cpu_row_Ok in Hrow as (a & b & c & d & Ha & Hb & Hc & Hd & _).
    repeat constructor; apply first_word_is_Ok; by eexists.
  - intros Hkeys. unfold cpu_timing_keys in Hkeys.
    rewrite !Forall_cons in Hkeys. destruct Hkeys as (Ha & Hb & Hc & Hd & _).
    apply first_word_is_Ok in Ha as [a Ha], Hb as [b Hb], Hc as [c Hc],
      Hd as [d Hd].
    unfold cpu_row. rewrite Ha, Hb, Hc, Hd. by eexists.
Qed.

Lemma cuda_row_is_Ok batch_name target input_rel metrics :
  (∃ row, cuda_row batch_name target input_rel metrics = Ok row)
  ↔ Forall (λ key, lstrip (get_or metrics key EmptyString) ≠ EmptyString)
      cuda_timing_keys.
Proof.
  split.
  - intros [row Hrow].
    apply cuda_row_Ok in Hrow as (a & b & c & d & Ha & Hb & Hc & Hd & _).
    repeat constructor; apply first_word_is_Ok; by eexists.
  - intros Hkeys. unfold cuda_timing_keys in Hkeys.
    rewrite !Forall_cons in Hkeys. destruct Hkeys as (Ha & Hb & Hc & Hd & _).
    apply first_word_is_Ok in Ha as [a Ha], Hb as [b Hb], Hc as [c Hc],
      Hd as [d Hd].
    unfold cuda_row. rewrite Ha, Hb, Hc, Hd. by eexists.
Qed.

(** X13. A row of the summary can be built exactly when each of the four
    timing metrics of its target has a non-blank character; otherwise the
    row raises. A row that is built has one field for each column of the
    header, and its four timing fields, the tenth to the thirteenth, are
    the first words of the four timing metrics, in order: the text of the
    metric up to its first blank, leading blanks apart, so that a unit
    after the number is dropped. *)
Theorem summary_row_built (batch_name target input_rel : string)
    (metrics : gmap string string) :
  ((∃ row, cpu_row batch_name target input_rel metrics = Ok row)
   ↔ Forall (λ key, lstrip (default EmptyString (metrics !! key)) ≠ EmptyString)
       cpu_timing_keys)
  ∧ ((∃ row, cuda_row batch_name target input_rel metrics = Ok row)
     ↔ Forall (λ key, lstrip (default EmptyString (metrics !! key)) ≠ EmptyString)
         cuda_timing_keys)
  ∧ (∀ row,
       cpu_row batch_name target input_rel metrics = Ok row →
       length row = length header_cols
       ∧ Forall2 (λ key f, is_first_word f (default EmptyString (metrics !! key)))
           cpu_timing_keys (take 4 (drop 9 row)))
  ∧ (∀ row,
       cuda_row batch_name target input_rel metrics = Ok row →
       length row = length header_cols
       ∧ Forall2 (λ key f, is_first_word f (default EmptyString (metrics !! key)))
           cuda_timing_keys (take 4 (drop 9 row))).
Proof.
  split_and!.
  - apply cpu_row_is_Ok.
  - apply cuda_row_is_Ok.
  - intros row Hrow. split; [eapply row_length; by left|].
    apply cpu_row_Ok in Hrow as (a & b & c & d & Ha & Hb & Hc & Hd & ->).
    repeat constructor; by apply first_word_Ok.
  - intros row Hrow. split; [eapply row_length; by right|].
    apply cuda_row_Ok in Hrow as (a & b & c & d & Ha & Hb & Hc & Hd & ->).
    repeat constructor; by apply first_word_Ok.
Qed.

End Rows.

(** ** Missing metrics *)




Lemma collect_metrics_lookup_witness :
  ∃ metrics,
    Task2.collect_metrics "cpu"
      (Task2.World true None (Some demo_metrics) None None 0 [])
    = (Ok (Some metrics), Task2.World true None (Some demo_metrics) None None 0 [])
    ∧ metrics !! strip "Min step time" = Some (strip " 0.1 s")
    ∧ ∀ k, Forall (λ l, Task2.metrics_line ∅ l !! k = None)
             (["Particles: 100"; "eps: 0.001"; "Total steps: 1000";
               "Total compute time (sum of per-step): 1.5 s";
               "Total kernel time (reset+forces+step): 15 ms"]
              ++ "Min step time: 0.1 s"
                 :: ["Avg step time: 0.2 s"; "Steps per second (avg): 5"]) →
        metrics !! k = None.
Proof.
  apply (collect_metrics_lookup "cpu"
           (Task2.World true None (Some demo_metrics) None None 0 [])
           ["Particles: 100"; "eps: 0.001"; "Total steps: 1000";
            "Total compute time (sum of per-step): 1.5 s";
            "Total kernel time (reset+forces+step): 15 ms"]
           "Min step time: 0.1 s"
           ["Avg step time: 0.2 s"; "Steps per second (avg): 5"]
           "Min step time" " 0.1 s").
  - reflexivity.
  - vm_compute. reflexivity.
  - reflexivity.
  - repeat constructor; vm_compute; reflexivity.
Defined.

(** ** The two loops of the N-body batch *)

Section Loops.

Import Task2.

Variable run_once :
  Task2.world → list string → option string →
  Z * option (list string) * option (list string).

(** What [main] does around its two loops. *)
Lemma main_around_cases loop1 loop2 w r w' :
  main_around loop1 loop2 w = (r, w') →
  (run_script_exists w = false ∧ r = Ok 1
   ∧ launches w' = launches w ∧ summary w' = summary w
   ∧ config_file w' = config_file w)
  ∨ (run_script_exists w = true
     ∧ ∃ w0,
         config_file w0 = config_file w ∧ launches w0 = launches w
         ∧ summary w0 = Some (join "," header_cols +:+ newline)
         ∧ match loop1 (config_file w) w0 with
           | (Raise e, w1) => r = Raise e ∧ w' = w1
           | (Ok _, w1) =>
               match loop2 (config_file w) w1 with
               | (Raise e, w2) => r = Raise e ∧ w' = w2
               | (Ok _, w2) =>
                   r = Ok 0 ∧ launches w' = launches w2
                   ∧ summary w' = summary w2
                   ∧ config_file w'
                     = match config_file w with
                       | Some c => Some c
                       | None => config_file w2
                       end
               end
           end).
Proof.
  unfold main_around.
  unfold Task2.read_original_config, Task2.read_json_config, Task2.print,
    Task2.open_summary, Task2.outf_write, Task2.write_json_config.
  unfold mbind, M_bind, bind, mret, M_ret, ret, raise, lift, get, modify. simpl.
  destruct (run_script_exists w); [|intros [= <- <-]; by left].
  destruct (config_file w) as [c|]; simpl.
  - destruct (loop1 _ _) as [[[]|e1] w1] eqn:E1.
    + destruct (loop2 _ _) as [[[]|e2] w2] eqn:E2;
        intros [= <- <-]; right; (split; [done|]);
        match type of E1 with loop1 _ ?w0 = _ => exists w0 end;
        (split_and!; [done..|]); by rewrite E1, E2.
    + intros [= <- <-]. right. split; [done|].
      match type of E1 with loop1 _ ?w0 = _ => exists w0 end.
      split_and!; [done..|]. by rewrite E1.
  - destruct (loop1 _ _) as [[[]|e1] w1] eqn:E1.
    + destruct (loop2 _ _) as [[[]|e2] w2] eqn:E2;
        intros [= <- <-]; right; (split; [done|]);
        match type of E1 with loop1 _ ?w0 = _ => exists w0 end;
        (split_and!; [done..|]); by rewrite E1, E2.
    + intros [= <- <-]. right. split; [done|].
      match type of E1 with loop1 _ ?w0 = _ => exists w0 end.
      split_and!; [done..|]. by rewrite E1.
Qed.

(** What a trial of the first loop does, by what its launch returns. *)
Lemma run_target_cases cfg target w r w' :
  run_target run_once cfg target w = (r, w') →
  launches w' = S (launches w) ∧ config_file w' = config_file w
  ∧ ∃ w1,
      ((run_once w1 (target_args target) None).1.1 ≠ 0
       ∨ left_for target (run_once w1 (target_args target) None) = None)
      ∧ r = Ok tt ∧ summary w' = summary w
      ∨ (run_once w1 (target_args target) None).1.1 = 0
        ∧ ∃ lines,
            left_for target (run_once w1 (target_args target) None) = Some lines
            ∧ match (if decide (target = "cpu")
                     then cpu_row (name cfg) target (input cfg)
                            (foldl Task2.metrics_line ∅ lines)
                     else cuda_row (name cfg) target (input cfg)
                            (foldl Task2.metrics_line ∅ lines)) with
              | Ok row =>
                  r = Ok tt
                  ∧ summary w'
                    = Some (default EmptyString (summary w)
                              +:+ join "," row +:+ newline)
              | Raise e => r = Raise e ∧ summary w' = summary w
              end.
Proof.
  unfold run_target, run_powershell_script, collect_metrics, Task2.print,
    Task2.outf_write, metrics_file, left_for.
  unfold mbind, M_bind, bind, mret, M_ret, ret, raise, lift, get, modify. simpl.
  match goal with
  | |- context [run_once ?w1 _ _] => set (w1' := w1)
  end.
  destruct (run_once w1' (target_args target) None) as [[rc cpu] cuda] eqn:Hout.
  simpl. intros Hrun.
  assert (∀ P : Task2.world → Prop,
            P w1' → ∃ w1, P w1) as Hex by (intros P HP; by exists w1').
  destruct (decide (rc ≠ 0)) as [Hrc|Hrc].
  { injection Hrun as <- <-. split_and!; [done..|].
    exists w1'. rewrite Hout. left. split_and!; [by left|done..]. }
  apply dec_stable in Hrc.
  destruct (decide (target = "cpu")) as [Ht|Ht]; simpl in Hrun.
  - destruct cpu as [lines|]; simpl in Hrun.
    + destruct (cpu_row _ _ _ _) as [row|e] eqn:Hrow; simpl in Hrun;
        injection Hrun as <- <-; (split_and!; [done..|]);
        exists w1'; rewrite Hout; right; (split; [done|]);
        exists lines; (split; [done|]); by rewrite Hrow.
    + injection Hrun as <- <-. split_and!; [done..|].
      exists w1'. rewrite Hout. left. split_and!; [by right|done..].
  - destruct cuda as [lines|]; simpl in Hrun.
    + destruct (cuda_row _ _ _ _) as [row|e] eqn:Hrow; simpl in Hrun;
        injection Hrun as <- <-; (split_and!; [done..|]);
        exists w1'; rewrite Hout; right; (split; [done|]);
        exists lines; (split; [done|]); by rewrite Hrow.
    + injection Hrun as <- <-. split_and!; [done..|].
      exists w1'. rewrite Hout. left. split_and!; [by right|done..].
Qed.

End Loops.

Section Trials.

Import Task2.

Variable run_once :
  Task2.world → list string → option string →
  Z * option (list string) * option (list string).

(** The same for the trial of the second loop. *)
Lemma run_omp_cases cfg threads_req w r w' :
  run_omp run_once cfg threads_req w = (r, w') →
  launches w' = S (launches w) ∧ config_file w' = config_file w
  ∧ ∃ w1,
      ((run_once w1 ["cpu"; "-NoPlot"; "-NoTrajectories"]
          (Some (str_of_int threads_req))).1.1 ≠ 0
       ∨ left_for "cpu" (run_once w1 ["cpu"; "-NoPlot"; "-NoTrajectories"]
                           (Some (str_of_int threads_req))) = None)
      ∧ r = Ok tt ∧ summary w' = summary w
      ∨ (run_once w1 ["cpu"; "-NoPlot"; "-NoTrajectories"]
           (Some (str_of_int threads_req))).1.1 = 0
        ∧ ∃ lines,
            left_for "cpu" (run_once w1 ["cpu"; "-NoPlot"; "-NoTrajectories"]
                              (Some (str_of_int threads_req))) = Some lines
            ∧ match cpu_row (name cfg) "cpu" (input cfg)
                      (foldl Task2.metrics_line ∅ lines) with
              | Ok row =>
                  r = Ok tt
                  ∧ summary w'
                    = Some (default EmptyString (summary w)
                              +:+ join "," row +:+ newline)
              | Raise e => r = Raise e ∧ summary w' = summary w
              end.
Proof.
  unfold run_omp, run_powershell_script, collect_metrics, Task2.print,
    Task2.outf_write, metrics_file.
  unfold mbind, M_bind, bind, mret, M_ret, ret, raise, lift, get, modify. simpl.
  match goal with
  | |- context [run_once ?w1 _ _] => set (w1' := w1)
  end.
  destruct (run_once w1' _ _) as [[rc cpu] cuda] eqn:Hout.
  simpl. intros Hrun.
  destruct (decide (rc ≠ 0)) as [Hrc|Hrc].
  { injection Hrun as <- <-. split_and!; [done..|].
    exists w1'. rewrite Hout. left. split_and!; [by left|done..]. }
  apply dec_stable in Hrc.
  destruct cpu as [lines|]; simpl in Hrun.
  - destruct (cpu_row _ _ _ _) as [row|e] eqn:Hrow; simpl in Hrun;
      injection Hrun as <- <-; (split_and!; [done..|]);
      exists w1'; rewrite Hout; right; (split; [done|]);
      exists lines; (split; [done|]); by rewrite Hrow.
  - injection Hrun as <- <-. split_and!; [done..|].
    exists w1'. rewrite Hout. left. split_and!; [by right|done..].
Qed.

Lemma append_empty_r (s : string) : s +:+ EmptyString = s.
Proof. induction s as [|c s IH]; [done|]. by rewrite append_cons, IH. Qed.

Lemma summary_rows_cons row rows :
  summary_rows (row :: rows) = (join "," row +:+ newline) +:+ summary_rows rows.
Proof.
  unfold summary_rows. rewrite fmap_cons.
  destruct rows as [|row' rows]; [by rewrite append_empty_r|done].
Qed.

Lemma summary_rows_app rows1 rows2 :
  summary_rows (rows1 ++ rows2) = summary_rows rows1 +:+ summary_rows rows2.
Proof.
  induction rows1 as [|row rows1 IH]; [done|].
  rewrite <-app_comm_cons, !summary_rows_cons, IH. by rewrite !append_assoc.
Qed.

Lemma batch_step_bind {A B} n m (c : M Task2.world A) (f : A → M Task2.world B) :
  batch_step n c → (∀ a, batch_step m (f a)) → batch_step (n + m) (c ≫= f).
Proof.
  intros Hc Hf w r w' s Hrun Hs. unfold mbind, M_bind, bind in Hrun.
  destruct (c w) as [[a|e] w1] eqn:Hcw.
  - destruct (Hc _ _ _ _ Hcw Hs) as (Hl1 & Hok1 & rows1 & Hs1 & Hrows1 & Hlen1).
    specialize (Hok1 a eq_refl).
    destruct (Hf a _ _ _ _ Hrun Hs1) as (Hl2 & Hok2 & rows2 & Hs2 & Hrows2 & Hlen2).
    split_and!; [lia|lia| |].
    + intros b Hb. rewrite (Hok2 b Hb). lia.
    + exists (rows1 ++ rows2). split_and!.
      * by rewrite Hs2, summary_rows_app, append_assoc.
      * by apply Forall_app.
      * rewrite length_app. lia.
  - injection Hrun as <- <-.
    destruct (Hc _ _ _ _ Hcw Hs) as (Hl1 & _ & rows1 & Hs1 & Hrows1 & Hlen1).
    split_and!; [lia|lia|done|]. by exists rows1.
Qed.

Lemma batch_step_modify (f : Task2.world → Task2.world) :
  (∀ w, summary (f w) = summary w ∧ launches (f w) = launches w) →
  batch_step 0 (modify f).
Proof.
  intros Hf w r w' s [= <- <-] Hs. destruct (Hf w) as [Hsum Hl].
  rewrite Hl. split_and!; [lia|lia|intros; lia|].
  exists []. rewrite Hsum, Hs, append_empty_r. split_and!; [done|done|simpl; lia].
Qed.

Lemma batch_step_ret {A} (a : A) : batch_step 0 (mret a : M Task2.world A).
Proof.
  intros w r w' s [= <- <-] Hs. split_and!; [lia|lia|intros; lia|].
  exists []. rewrite Hs, append_empty_r. split_and!; [done|done|simpl; lia].
Qed.

Lemma batch_step_for_each {A} n (l : list A) (body : A → M Task2.world unit) :
  Forall (λ x, batch_step n (body x)) l →
  batch_step (length l * n) (for_each l body).
Proof.
  induction 1 as [|x l Hx _ IH]; simpl.
  - apply (batch_step_ret tt).
  - by apply (batch_step_bind n (length l * n) (body x) (λ _, for_each l body)).
Qed.

Lemma batch_step_cases w (r : result unit) w' s :
  launches w' = S (launches w) →
  summary w = Some s →
  (summary w' = summary w
   ∨ ∃ row, length row = length header_cols
       ∧ summary w'
         = Some (default EmptyString (summary w) +:+ join "," row +:+ newline)) →
  (launches w ≤ launches w' ≤ launches w + 1)%nat
  ∧ (∀ a, r = Ok a → launches w' = (launches w + 1)%nat)
  ∧ ∃ rows,
      summary w' = Some (s +:+ summary_rows rows)
      ∧ Forall (λ row, length row = length header_cols) rows
      ∧ (length rows ≤ launches w' - launches w)%nat.
Proof.
  intros Hl Hs Hsum. split_and!; [lia|lia|intros; lia|].
  destruct Hsum as [Hsum|(row & Hrow & Hsum)].
  - exists []. rewrite Hsum, Hs, append_empty_r.
    split_and!; [done|done|simpl; lia].
  - exists [row]. rewrite Hsum, Hs. split_and!; [done| |simpl; lia].
    by constructor.
Qed.

Lemma batch_step_run_target cfg target :
  batch_step 1 (run_target run_once cfg target).
Proof.
  intros w r w' s Hrun Hs.
  apply run_target_cases in Hrun
    as (Hl & _ & w1 & [(_ & _ & Hsum)|(_ & lines & _ & Hrow)]).
  - apply (batch_step_cases w r w' s); auto.
  - apply (batch_step_cases w r w' s); [done..|].
    destruct (decide (target = "cpu")) as [Ht|Ht].
    + destruct (cpu_row _ _ _ _) as [row|e] eqn:Hr; [|by left; destruct Hrow].
      right. exists row. split; [|by destruct Hrow].
      eapply row_length. by left.
    + destruct (cuda_row _ _ _ _) as [row|e] eqn:Hr; [|by left; destruct Hrow].
      right. exists row. split; [|by destruct Hrow].
      eapply row_length. by right.
Qed.

Lemma batch_step_run_omp cfg threads_req :
  batch_step 1 (run_omp run_once cfg threads_req).
Proof.
  intros w r w' s Hrun Hs.
  apply run_omp_cases in Hrun
    as (Hl & _ & w1 & [(_ & _ & Hsum)|(_ & lines & _ & Hrow)]).
  - apply (batch_step_cases w r w' s); auto.
  - apply (batch_step_cases w r w' s); [done..|].
    destruct (cpu_row _ _ _ _) as [row|e] eqn:Hr; [|by left; destruct Hrow].
    right. exists row. split; [|by destruct Hrow].
    eapply row_length. by left.
Qed.

Lemma batch_step_run_batch original cfg :
  batch_step 2 (run_batch run_once original cfg).
Proof.
  unfold run_batch.
  do 5 (apply (batch_step_bind 0 2); [by apply batch_step_modify|]; intros _).
  apply (batch_step_for_each 1 TARGETS), Forall_forall. intros target _.
  apply batch_step_run_target.
Qed.

Lemma batch_step_run_batch_omp original cfg :
  is_Some (threads cfg) → batch_step 1 (run_batch_omp run_once original cfg).
Proof.
  intros [n Hn]. unfold run_batch_omp. rewrite Hn.
  apply (batch_step_bind 0 1).
  { intros w r w' s [= <- <-] Hs. split_and!; [lia|lia|intros; lia|].
    exists []. rewrite Hs, append_empty_r. split_and!; [done|done|simpl; lia]. }
  intros threads_req.
  do 5 (apply (batch_step_bind 0 1); [by apply batch_step_modify|]; intros _).
  apply batch_step_run_omp.
Qed.

Lemma batch_step_loop1 original :
  batch_step 16 (for_each BATCH_CONFIGS (run_batch run_once original)).
Proof.
  apply (batch_step_for_each 2 BATCH_CONFIGS), Forall_forall. intros cfg _.
  apply batch_step_run_batch.
Qed.

Lemma batch_step_loop2 original :
  batch_step 5 (for_each BATCH_CONFIGS_OMP (run_batch_omp run_once original)).
Proof.
  apply (batch_step_for_each 1 BATCH_CONFIGS_OMP).
  repeat (constructor; [by apply batch_step_run_batch_omp|]). constructor.
Qed.

(** The summary and the launches of [main] when the launcher is there. *)
Lemma main_batch w r w' :
  run_script_exists w = true →
  Task2.main run_once w = (r, w') →
  (launches w ≤ launches w' ≤ launches w + 21)%nat
  ∧ (∀ code, r = Ok code → code = 0 ∧ launches w' = (launches w + 21)%nat)
  ∧ ∃ rows,
      summary w' = Some ((join "," header_cols +:+ newline) +:+ summary_rows rows)
      ∧ Forall (λ row, length row = length header_cols) rows
      ∧ (length rows ≤ launches w' - launches w)%nat.
Proof.
  intros Hrs Hmain. rewrite main_eq in Hmain.
  apply main_around_cases in Hmain as [[Hno _]|(_ & w0 & _ & Hl0 & Hs0 & Hmain)];
    [congruence|].
  destruct (for_each BATCH_CONFIGS _ w0) as [[[]|e1] w1] eqn:E1.
  - destruct (batch_step_loop1 _ _ _ _ _ E1 Hs0)
      as (Hl1 & Hok1 & rows1 & Hs1 & Hrows1 & Hlen1).
    specialize (Hok1 tt eq_refl).
    destruct (for_each BATCH_CONFIGS_OMP _ w1) as [[[]|e2] w2] eqn:E2.
    + destruct (batch_step_loop2 _ _ _ _ _ E2 Hs1)
        as (Hl2 & Hok2 & rows2 & Hs2 & Hrows2 & Hlen2).
      specialize (Hok2 tt eq_refl).
      destruct Hmain as (-> & Hl & Hs & _). rewrite Hl, Hs.
      split_and!; [lia|lia| |].
      * intros code [= <-]. split; [done|lia].
      * exists (rows1 ++ rows2). split_and!.
        -- by rewrite Hs2, summary_rows_app, append_assoc.
        -- by apply Forall_app.
        -- rewrite length_app. lia.
    + destruct (batch_step_loop2 _ _ _ _ _ E2 Hs1)
        as (Hl2 & _ & rows2 & Hs2 & Hrows2 & Hlen2).
      destruct Hmain as [-> ->].
      split_and!; [lia|lia|done|].
      exists (rows1 ++ rows2). split_and!.
      * by rewrite Hs2, summary_rows_app, append_assoc.
      * by apply Forall_app.
      * rewrite length_app. lia.
  - destruct (batch_step_loop1 _ _ _ _ _ E1 Hs0)
      as (Hl1 & _ & rows1 & Hs1 & Hrows1 & Hlen1).
    destruct Hmain as [-> ->].
    split_and!; [lia|lia|done|].
    exists rows1. split_and!; [done|done|lia].
Qed.

(** X14. When the N-body batch returns, it returns 1 or 0. It returns 1
    when the launcher is missing: it has then made no launch and touched
    neither the configuration nor the summary. It returns 0 when the
    launcher is there, after exactly 21 launches, two for each of the 8
    entries and one for each of the 5 OpenMP entries, whatever the
    launches returned. *)
Theorem main_launches (w : Task2.world) (code : Z) (w' : Task2.world) :
  Task2.main run_once w = (Ok code, w') →
  (code = 1 ∧ run_script_exists w = false
   ∧ launches w' = launches w ∧ summary w' = summary w
   ∧ config_file w' = config_file w)
  ∨ (code = 0 ∧ run_script_exists w = true
     ∧ launches w' = (launches w + 21)%nat).
Proof.
  intros Hmain. destruct (run_script_exists w) eqn:Hrs.
  - right. destruct (main_batch w _ w' Hrs Hmain) as (_ & Hok & _).
    by destruct (Hok code eq_refl) as [-> ->].
  - left. rewrite main_eq in Hmain.
    apply main_around_cases in Hmain as [(_ & [= <-] & ? & ? & ?)|[Hyes _]];
      [done|congruence].
Qed.


End Trials.

Section Quiet.

Import Task2.

Variable run_once :
  Task2.world → list string → option string →
  Z * option (list string) * option (list string).

(** No launch both ends with code 0 and leaves a metrics file. *)
Hypothesis quiet : ∀ w args env,
  (run_once w args env).1.1 ≠ 0
  ∨ ((run_once w args env).1.2 = None ∧ (run_once w args env).2 = None).

Lemma quiet_left_for target w args env lines :
  (run_once w args env).1.1 = 0 →
  left_for target (run_once w args env) = Some lines → False.
Proof.
  intros Hrc Hfile. unfold left_for in Hfile.
  destruct (quiet w args env) as [?|[Hcpu Hcuda]]; [done|].
  case_decide; congruence.
Qed.

Lemma rowless_bind {A B} (c : M Task2.world A) (f : A → M Task2.world B) :
  rowless c → (∀ a, rowless (f a)) → rowless (c ≫= f).
Proof.
  intros Hc Hf w r w' Hrun. unfold mbind, M_bind, bind in Hrun.
  destruct (c w) as [[a|e] w1] eqn:Hcw.
  - destruct (Hc _ _ _ Hcw) as [_ Hs1]. destruct (Hf a _ _ _ Hrun) as [Hr Hs2].
    split; [done|congruence].
  - by destruct (Hc _ _ _ Hcw) as [[a ?] _].
Qed.

Lemma rowless_modify (f : Task2.world → Task2.world) :
  (∀ w, summary (f w) = summary w) → rowless (modify f).
Proof. intros Hf w r w' [= <- <-]. split; [by eexists|done]. Qed.

Lemma rowless_for_each {A} (l : list A) (body : A → M Task2.world unit) :
  Forall (λ x, rowless (body x)) l → rowless (for_each l body).
Proof.
  induction 1 as [|x l Hx _ IH]; simpl.
  - intros w r w' [= <- <-]. split; [by eexists|done].
  - by apply (rowless_bind (body x) (λ _, for_each l body)).
Qed.

Lemma rowless_run_target cfg target : rowless (run_target run_once cfg target).
Proof.
  intros w r w' Hrun.
  apply run_target_cases in Hrun
    as (_ & _ & w1 & [(_ & -> & Hsum)|(Hrc & lines & Hfile & _)]).
  - split; [by eexists|done].
  - by destruct (quiet_left_for _ _ _ _ _ Hrc Hfile).
Qed.

Lemma rowless_run_omp cfg threads_req :
  rowless (run_omp run_once cfg threads_req).
Proof.
  intros w r w' Hrun.
  apply run_omp_cases in Hrun
    as (_ & _ & w1 & [(_ & -> & Hsum)|(Hrc & lines & Hfile & _)]).
  - split; [by eexists|done].
  - by destruct (quiet_left_for _ _ _ _ _ Hrc Hfile).
Qed.

Lemma rowless_loop1 original :
  rowless (for_each BATCH_CONFIGS (run_batch run_once original)).
Proof.
  apply rowless_for_each, Forall_forall. intros cfg _. unfold run_batch.
  do 5 (apply rowless_bind; [by apply rowless_modify|]; intros _).
  apply rowless_for_each, Forall_forall. intros target _.
  apply rowless_run_target.
Qed.

Lemma rowless_run_batch_omp original cfg :
  is_Some (threads cfg) → rowless (run_batch_omp run_once original cfg).
Proof.
  intros [n Hn]. unfold run_batch_omp. rewrite Hn.
  apply rowless_bind.
  { intros w r w' [= <- <-]. split; [by eexists|done]. }
  intros threads_req.
  do 5 (apply rowless_bind; [by apply rowless_modify|]; intros _).
  apply rowless_run_omp.
Qed.

Lemma rowless_loop2 original :
  rowless (for_each BATCH_CONFIGS_OMP (run_batch_omp run_once original)).
Proof.
  apply rowless_for_each.
  repeat (constructor; [by apply rowless_run_batch_omp|]). constructor.
Qed.

(** X16. Failures do not show in the result of the N-body batch: when
    every launch ends with a non-zero code or leaves no metrics file, the
    batch still makes its 21 launches and returns 0, and the summary holds
    the header line alone. *)
Theorem main_no_rows (w : Task2.world) :
  run_script_exists w = true →
  ∃ w',
    Task2.main run_once w = (Ok 0, w')
    ∧ summary w' = Some (join "," header_cols +:+ newline)
    ∧ launches w' = (launches w + 21)%nat.
Proof.
  intros Hrs. destruct (Task2.main run_once w) as [r w'] eqn:Hmain.
  pose proof Hmain as Hcases. rewrite main_eq in Hcases.
  apply main_around_cases in Hcases
    as [[Hno _]|(_ & w0 & _ & Hl0 & Hs0 & Hcases)]; [congruence|].
  destruct (for_each BATCH_CONFIGS _ w0) as [r1 w1] eqn:E1.
  destruct (rowless_loop1 _ _ _ _ E1) as [[[] ->] Hs1].
  destruct (for_each BATCH_CONFIGS_OMP _ w1) as [r2 w2] eqn:E2.
  destruct (rowless_loop2 _ _ _ _ E2) as [[[] ->] Hs2].
  destruct Hcases as (-> & Hl & Hs & _).
  exists w'. split_and!; [done|congruence|].
  destruct (batch_step_loop1 run_once _ _ _ _ _ E1 Hs0) as (_ & Hok1 & _).
  rewrite Hs0 in Hs1.
  destruct (batch_step_loop2 run_once _ _ _ _ _ E2 Hs1) as (_ & Hok2 & _).
  rewrite Hl, (Hok2 tt eq_refl), (Hok1 tt eq_refl). lia.
Qed.

End Quiet.

Lemma main_no_rows_witness :
  ∃ w',
    Task2.main failing_launcher demo_world = (Ok 0, w')
    ∧ Task2.summary w' = Some (join "," Task2.header_cols +:+ Task2.newline)
    ∧ Task2.launches w' = (Task2.launches demo_world + 21)%nat.
Proof.
  apply (main_no_rows failing_launcher).
  - intros w args env. by left.
  - reflexivity.
Defined.

Section LastConfig.

Import Task2.

Variable run_once :
  Task2.world → list string → option string →
  Z * option (list string) * option (list string).

Lemma for_each_last {A} (l : list A) (x : A) (body : A → M Task2.world unit) w w' :
  for_each (l ++ [x]) body w = (Ok tt, w') →
  ∃ w1, body x w1 = (Ok tt, w').
Proof.
  revert w. induction l as [|y l IH]; intros w; simpl; unfold bind.
  - destruct (body x w) as [[[]|e] w1] eqn:Hx; [|done].
    intros [= <-]. by exists w.
  - destruct (body y w) as [[[]|e] w1]; [|done]. apply IH.
Qed.

Lemma run_batch_omp_config original cfg w w' :
  run_batch_omp run_once original cfg w = (Ok tt, w') →
  config_file w' = Some (new_config_for original cfg).
Proof.
  unfold run_batch_omp. destruct (threads cfg) as [n|]; [|done].
  unfold Task2.print, write_json_config.
  unfold mbind, M_bind, bind, mret, M_ret, ret, raise, lift, get, modify. simpl.
  intros Hrun. by apply run_omp_cases in Hrun as (_ & -> & _).
Qed.

(** X17. When there is no configuration file at the start and the batch
    runs to its end, the file is created and left with the configuration
    of the last OpenMP entry: end time 10000, step 5, the 2000-body input,
    and no other key. *)
Theorem main_leaves_last_config (w w' : Task2.world) :
  config_file w = None →
  Task2.main run_once w = (Ok 0, w') →
  config_file w'
  = Some (<["input" := JStr "random_N2000.txt"]>
            (<["dt" := JNum (q 5 1)]> (<["tend" := JNum (q 10000 1)]> ∅))).
Proof.
  intros Hc Hmain. rewrite main_eq in Hmain.
  apply main_around_cases in Hmain as [(_ & [=] & _)|(_ & w0 & _ & _ & _ & Hmain)].
  rewrite Hc in Hmain.
  destruct (for_each BATCH_CONFIGS _ w0) as [[[]|e1] w1]; [|by destruct Hmain].
  destruct (for_each BATCH_CONFIGS_OMP _ w1) as [[[]|e2] w2] eqn:E2;
    [|by destruct Hmain].
  destruct Hmain as (_ & _ & _ & ->).
  change BATCH_CONFIGS_OMP
    with ([ Batch "N2000_dt5_threads1" (q 10000 1) (q 5 1) "random_N2000.txt" (Some 1);
            Batch "N2000_dt5_threads2" (q 10000 1) (q 5 1) "random_N2000.txt" (Some 2);
            Batch "N2000_dt5_threads4" (q 10000 1) (q 5 1) "random_N2000.txt" (Some 4);
            Batch "N2000_dt5_threads8" (q 10000 1) (q 5 1) "random_N2000.txt" (Some 8) ]
          ++ [ Batch "N2000_dt5_threads16" (q 10000 1) (q 5 1) "random_N2000.txt"
                 (Some 16) ]) in E2.
  apply for_each_last in E2 as [w3 E2].
  by apply run_batch_omp_config in E2 as ->.
Qed.

End LastConfig.

Lemma main_leaves_last_config_witness :
  Task2.config_file
    (Task2.main demo_launcher (Task2.World true None None None None 0 [])).2
  = Some (<["input" := Task2.JStr "random_N2000.txt"]>
            (<["dt" := Task2.JNum (q 5 1)]>
               (<["tend" := Task2.JNum (q 10000 1)]> ∅))).
Proof.
  apply (main_leaves_last_config demo_launcher
           (Task2.World true None None None None 0 [])).
  - reflexivity.
  - apply pair_fst_eq. by_decide.
Defined.

Lemma main_launches_witness :
  (0 = 1 ∧ Task2.run_script_exists demo_world = false
   ∧ Task2.launches (Task2.main demo_launcher demo_world).2
     = Task2.launches demo_world
   ∧ Task2.summary (Task2.main demo_launcher demo_world).2
     = Task2.summary demo_world
   ∧ Task2.config_file (Task2.main demo_launcher demo_world).2
     = Task2.config_file demo_world)
  ∨ (0 = 0 ∧ Task2.run_script_exists demo_world = true
     ∧ Task2.launches (Task2.main demo_launcher demo_world).2
       = (Task2.launches demo_world + 21)%nat).
Proof.
  apply (main_launches demo_launcher demo_world 0).
  apply pair_fst_eq. by_decide.
Defined.

